(** * LinkedIn report exporter: the fetch, filter, sort and export pipeline

    A shallow embedding of [streamlit_app.py].  Python values decoded from
    JSON are an inductive type with dictionaries as finite maps; exceptions
    are explicit results; the HTTP calls thread a log of the requests
    issued.  Python [str] values are modelled as strings of code points
    below 256. *)

From Stdlib Require Import ZArith List Ascii String Bool Lia Floats.SpecFloat
  Numbers.DecimalString Sorting.Sorted.
From stdpp Require Import base option list strings gmap.

Set Warnings "-register-all".

Local Open Scope string_scope.
Local Open Scope Z_scope.

(** ** Python values *)

(** What [resp.json()] can produce: [None], booleans, integers, floats,
    strings, lists and string-keyed dictionaries. *)
Inductive value : Type :=
| VNone
| VBool (b : bool)
| VInt (n : Z)
| VFloat (f : spec_float)
| VStr (s : string)
| VList (l : list value)
| VDict (d : gmap string value).

(** The exceptions the program can meet; all are subclasses of
    [Exception].  [str(e)] is the carried message. *)
Inductive exn : Type :=
| RuntimeError (msg : string)
| AttributeError (msg : string)
| TypeError (msg : string)
| LibraryError (cls msg : string).

Definition exn_str (e : exn) : string :=
  match e with
  | RuntimeError m | AttributeError m | TypeError m | LibraryError _ m => m
  end.

(** A computation either returns or raises. *)
Inductive result (A : Type) : Type :=
| Ok (a : A)
| Raise (e : exn).
Arguments Ok {A} a.
Arguments Raise {A} e.

Definition rbind {A B} (m : result A) (k : A -> result B) : result B :=
  match m with
  | Ok a => k a
  | Raise e => Raise e
  end.

(** [try: body except Exception: handler] *)
Definition try_except {A} (body : result A) (handler : exn -> result A) : result A :=
  match body with
  | Ok a => Ok a
  | Raise e => handler e
  end.

Notation "'let*' x := m 'in' k" := (rbind m (fun x => k))
  (at level 10, x pattern, m at level 100, k at level 200).

(** Evaluate [f] on each element from left to right, stopping at the first
    exception (a list comprehension). *)
Fixpoint traverse {A B} (f : A -> result B) (l : list A) : result (list B) :=
  match l with
  | [] => Ok []
  | x :: xs => let* y := f x in let* ys := traverse f xs in Ok (y :: ys)
  end.

(** Truth value of a decoded JSON value ([not value], [if value]). *)
Definition truthy (v : value) : bool :=
  match v with
  | VNone => false
  | VBool b => b
  | VInt n => negb (n =? 0)
  | VFloat f => match f with S754_zero _ => false | _ => true end
  | VStr s => negb (String.eqb s EmptyString)
  | VList l => match l with [] => false | _ => true end
  | VDict d => negb (bool_decide (d = ∅))
  end.

Definition type_name (v : value) : string :=
  match v with
  | VNone => "NoneType"
  | VBool _ => "bool"
  | VInt _ => "int"
  | VFloat _ => "float"
  | VStr _ => "str"
  | VList _ => "list"
  | VDict _ => "dict"
  end.

Definition str_of_Z (n : Z) : string := NilZero.string_of_int (Z.to_int n).

(** [obj.get(key, default)]: only dictionaries have the method. *)
Definition py_get (obj : value) (key : string) (dflt : value) : result value :=
  match obj with
  | VDict d => Ok (default dflt (d !! key))
  | _ => Raise (AttributeError
                  ("'" +:+ type_name obj +:+ "' object has no attribute 'get'"))
  end.

(** ** Dates and timestamps *)

(** A [datetime]: the wall-clock reading in microseconds since
    0001-01-01T00:00:00, and the UTC offset in microseconds when the value is
    timezone-aware ([None] for a naive one). *)
Record datetime : Type := mkDatetime {
  wall : Z;
  utcoffset : option Z
}.

Definition datetime_min : datetime := mkDatetime 0 None.

Definition naive_aware_error : exn :=
  TypeError "can't compare offset-naive and offset-aware datetimes".

(** Ordering comparisons of two datetimes: by wall clock when both are
    naive, by instant when both are aware, [TypeError] when they are mixed. *)
Definition dt_compare (op : Z -> Z -> bool) (a b : datetime) : result bool :=
  match utcoffset a, utcoffset b with
  | None, None => Ok (op (wall a) (wall b))
  | Some oa, Some ob => Ok (op (wall a - oa) (wall b - ob))
  | _, _ => Raise naive_aware_error
  end.

Definition dt_lt : datetime -> datetime -> result bool := dt_compare Z.ltb.
Definition dt_le : datetime -> datetime -> result bool := dt_compare Z.leb.
Definition dt_gt : datetime -> datetime -> result bool := dt_compare Z.gtb.

(** [min(l)] on a non-empty list: keeps the first element unless a later
    one is strictly smaller. *)
Fixpoint py_min_from (best : datetime) (l : list datetime) : result datetime :=
  match l with
  | [] => Ok best
  | d :: ds => let* b := dt_lt d best in py_min_from (if b then d else best) ds
  end.

Definition py_min (l : list datetime) : result datetime :=
  match l with
  | [] => Raise (LibraryError "ValueError" "min() arg is an empty sequence")
  | d :: ds => py_min_from d ds
  end.

(** A calendar [date]. *)
Record date : Type := mkDate {
  year : Z;
  month : Z;
  day : Z
}.

Definition is_leap (y : Z) : bool :=
  (y mod 4 =? 0) && (negb (y mod 100 =? 0) || (y mod 400 =? 0)).

Definition days_before_year (y : Z) : Z :=
  let p := y - 1 in p * 365 + p / 4 - p / 100 + p / 400.

Definition days_in_month (y m : Z) : Z :=
  if m =? 2 then (if is_leap y then 29 else 28)
  else if (m =? 4) || (m =? 6) || (m =? 9) || (m =? 11) then 30
  else 31.

Definition days_before_month (y m : Z) : Z :=
  fold_right Z.add 0 (map (days_in_month y) (map Z.of_nat (seq 1 (Z.to_nat (m - 1))))).

Definition toordinal (d : date) : Z :=
  days_before_year (year d) + days_before_month (year d) (month d) + day d.

Definition us_per_day : Z := 86400000000.

(** [datetime.combine(d, datetime.min.time())] and
    [datetime.combine(d, datetime.max.time())]: both naive. *)
Definition combine_min (d : date) : datetime :=
  mkDatetime ((toordinal d - 1) * us_per_day) None.
Definition combine_max (d : date) : datetime :=
  mkDatetime ((toordinal d - 1) * us_per_day + (us_per_day - 1)) None.

Fixpoint zeros (n : nat) : string :=
  match n with
  | O => EmptyString
  | S k => String "0" (zeros k)
  end.

Definition zero_pad (width : nat) (s : string) : string :=
  zeros (width - String.length s) +:+ s.

(** [d.isoformat()] *)
Definition isoformat (d : date) : string :=
  zero_pad 4 (str_of_Z (year d)) +:+ "-" +:+ zero_pad 2 (str_of_Z (month d))
    +:+ "-" +:+ zero_pad 2 (str_of_Z (day d)).

(** ** Identifier extraction *)

(** The characters that end the captured segment: the complement of the
    class [[^\/?#]]. *)
Definition is_delim (c : ascii) : bool :=
  Ascii.eqb c "/" || Ascii.eqb c "?" || Ascii.eqb c "#".

(** [s] with the prefix [p] removed, when [s] starts with [p]. *)
Fixpoint strip_prefix (p s : string) : option string :=
  match p, s with
  | EmptyString, _ => Some s
  | String a p', String b s' => if Ascii.eqb a b then strip_prefix p' s' else None
  | String _ _, EmptyString => None
  end.

(** The longest prefix without delimiter: what the greedy [[^\/?#]+]
    consumes. *)
Fixpoint segment (s : string) : string :=
  match s with
  | EmptyString => EmptyString
  | String c r => if is_delim c then EmptyString else String c (segment r)
  end.

Definition profile_prefix : string := "linkedin.com/in/".

(** The pattern anchored at the start of [s]; the group must hold at least
    one character. *)
Definition match_here (s : string) : option string :=
  match strip_prefix profile_prefix s with
  | Some rest =>
      match segment rest with
      | EmptyString => None
      | seg => Some seg
      end
  | None => None
  end.

(** [re.search(r"linkedin\.com\/in\/([^\/?#]+)", s)]: the leftmost match,
    returned as its group 1. *)
Fixpoint re_search (s : string) : option string :=
  match match_here s with
  | Some g => Some g
  | None =>
      match s with
      | EmptyString => None
      | String _ r => re_search r
      end
  end.

(** [str.isspace] on a single character (code points below 256). *)
Definition is_space (c : ascii) : bool :=
  let n := Z.of_N (N_of_ascii c) in
  ((9 <=? n) && (n <=? 13)) || ((28 <=? n) && (n <=? 32)) || (n =? 133) || (n =? 160).

Fixpoint lstrip (s : string) : string :=
  match s with
  | EmptyString => EmptyString
  | String c r => if is_space c then lstrip r else s
  end.

Fixpoint rstrip (s : string) : string :=
  match s with
  | EmptyString => EmptyString
  | String c r =>
      match rstrip r with
      | EmptyString => if is_space c then EmptyString else String c EmptyString
      | r' => String c r'
      end
  end.

(** [s.strip()] *)
Definition strip (s : string) : string := rstrip (lstrip s).

Definition extract_username (linkedin_url : string) : string :=
  match re_search linkedin_url with
  | Some g => g
  | None => strip linkedin_url
  end.


(** ** The external actor *)

Definition APIFY_ACTOR_ENDPOINT : string :=
  "https://api.apify.com/v2/acts/apimaestro~linkedin-profile-posts/run-sync-get-dataset-items".

(** What [requests.post] is called with. *)
Record request : Type := mkRequest {
  req_url : string;
  req_username : string;
  req_limit : Z;
  req_total_posts : Z;
  req_timeout : Z
}.

(** What it answers: the status, the body as text, and the body as
    [resp.json()] decodes it (decoding raises on a body that is not JSON). *)
Record response : Type := mkResponse {
  status_code : Z;
  text : string;
  json : result value
}.

(** [resp.ok]: the status is not a client or server error. *)
Definition resp_ok (r : response) : bool :=
  negb ((400 <=? status_code r) && (status_code r <? 600)).

(** Computations that issue HTTP requests thread the log of the requests
    issued so far; the log survives an exception. *)
Definition io (A : Type) : Type := list request -> result A * list request.

Definition io_ret {A} (a : A) : io A := fun log => (Ok a, log).
Definition io_raise {A} (e : exn) : io A := fun log => (Raise e, log).
Definition io_lift {A} (r : result A) : io A := fun log => (r, log).
Definition io_bind {A B} (m : io A) (k : A -> io B) : io B :=
  fun log =>
    match m log with
    | (Ok a, log') => k a log'
    | (Raise e, log') => (Raise e, log')
    end.

Notation "'let!' x := m 'in' k" := (io_bind m (fun x => k))
  (at level 10, x pattern, m at level 100, k at level 200).

(** ** Interface events *)

Inductive ui_event : Type :=
| StError (msg : string)
| StStop
| StSpinner (msg : string)
| StSuccess (msg : string)
| StDownloadButton (label : string) (data : list Byte.byte) (file_name mime : string)
| StJson (posts : list value).

Definition is_download (e : ui_event) : bool :=
  match e with
  | StDownloadButton _ _ _ _ => true
  | _ => false
  end.

(** ** Tabular export: pure parts *)

Definition headers : list string :=
  [ "Post Date"; "posted_at/relative"; "url"; "Post Type"; "Post Content";
    "total reactions"; "like"; "support"; "love"; "insightful"; "celebrate";
    "comments"; "reposts"; "funny"; "Media Type" ].

(** [s.split(sep)] for a one-character separator. *)
Fixpoint split_on (sep : ascii) (s : string) : list string :=
  match s with
  | EmptyString => [EmptyString]
  | String c r =>
      if Ascii.eqb c sep then EmptyString :: split_on sep r
      else match split_on sep r with
           | [] => [String c EmptyString]
           | w :: ws => String c w :: ws
           end
  end.

(** The loop of [get_path] over the parts of the path. *)
Fixpoint get_path_parts (cur : value) (parts : list string) : value :=
  match parts with
  | [] => cur
  | part :: rest =>
      match cur with
      | VDict d =>
          match d !! part with
          | Some v => get_path_parts v rest
          | None => VStr EmptyString
          end
      | _ => VStr EmptyString
      end
  end.

Definition get_path (obj : value) (path : string) : value :=
  get_path_parts obj (split_on "." path).

Definition post_row (p : value) : result (list value) :=
  let c1 := get_path p "posted_at.date" in
  let c2 := get_path p "posted_at.relative" in
  let* c3 := py_get p "url" (VStr EmptyString) in
  let* c4 := py_get p "post_type" (VStr EmptyString) in
  let* c5 := py_get p "text" (VStr EmptyString) in
  Ok [ c1; c2; c3; c4; c5;
       get_path p "stats.total_reactions";
       get_path p "stats.like";
       get_path p "stats.support";
       get_path p "stats.love";
       get_path p "stats.insight";
       get_path p "stats.celebrate";
       get_path p "stats.comments";
       get_path p "stats.reposts";
       get_path p "stats.funny";
       get_path p "media.type" ].

Definition dquote : ascii := ascii_of_nat 34.
Definition CR : ascii := ascii_of_nat 13.
Definition LF : ascii := ascii_of_nat 10.

(** A field is quoted when it holds the delimiter, the quote character or a
    character of the line terminator. *)
Fixpoint needs_quote (s : string) : bool :=
  match s with
  | EmptyString => false
  | String c r =>
      Ascii.eqb c "," || Ascii.eqb c dquote || Ascii.eqb c CR || Ascii.eqb c LF
      || needs_quote r
  end.

Fixpoint double_quotes (s : string) : string :=
  match s with
  | EmptyString => EmptyString
  | String c r =>
      if Ascii.eqb c dquote then String dquote (String dquote (double_quotes r))
      else String c (double_quotes r)
  end.

Definition csv_quote (s : string) : string :=
  String dquote (double_quotes s +:+ String dquote EmptyString).

Fixpoint join (sep : string) (l : list string) : string :=
  match l with
  | [] => EmptyString
  | [s] => s
  | s :: rest => s +:+ sep +:+ join sep rest
  end.

(** UTF-8 of a string of code points below 256. *)
Fixpoint encode_utf8 (s : string) : list Byte.byte :=
  match s with
  | EmptyString => []
  | String c r =>
      let n := N_of_ascii c in
      if (n <? 128)%N then byte_of_ascii c :: encode_utf8 r
      else byte_of_ascii (ascii_of_N (192 + n / 64))
           :: byte_of_ascii (ascii_of_N (128 + n mod 64)) :: encode_utf8 r
  end.

(** ** Sorting *)

(** [list.sort(key=..., reverse=True)] on datetime keys: the keys are
    computed first, the comparisons use [<] only, and elements with equal
    keys keep their original order.  An element is inserted in front of the
    first one whose key is not greater than its own. *)
Fixpoint insert_newest (x : datetime * value) (l : list (datetime * value))
  : result (list (datetime * value)) :=
  match l with
  | [] => Ok [x]
  | y :: ys =>
      let* smaller := dt_lt (fst x) (fst y) in
      if smaller then let* r := insert_newest x ys in Ok (y :: r)
      else Ok (x :: y :: ys)
  end.

Fixpoint sort_pairs (l : list (datetime * value)) : result (list (datetime * value)) :=
  match l with
  | [] => Ok []
  | x :: xs => let* s := sort_pairs xs in insert_newest x s
  end.

Definition sort_reverse_by (key : value -> result datetime) (l : list value)
  : result (list value) :=
  let* keys := traverse key l in
  let* s := sort_pairs (zip keys l) in
  Ok (map snd s).

Section Pipeline.

(** [dateutil.parser.parse]: returns a datetime or raises. *)
Variable dateparser_parse : string -> result datetime.
(** [repr] of floats, lists and dictionaries. *)
Variable py_repr : value -> string.
(** The external service: its answer to a request, given the requests
    made before; [requests.post] raises on a network failure. *)
Variable actor : list request -> request -> result response.

(** [str(value)] *)
Definition py_str (v : value) : string :=
  match v with
  | VNone => "None"
  | VBool true => "True"
  | VBool false => "False"
  | VInt n => str_of_Z n
  | VStr s => s
  | _ => py_repr v
  end.

Definition parse_post_date (v : value) : result (option datetime) :=
  if negb (truthy v) then Ok None
  else try_except
         (let* d := dateparser_parse (py_str v) in Ok (Some d))
         (fun _ => Ok None).

(** [parse_post_date(p.get("posted_at", {}).get("date"))] *)
Definition post_date (p : value) : result (option datetime) :=
  let* posted_at := py_get p "posted_at" (VDict ∅) in
  let* d := py_get posted_at "date" VNone in
  parse_post_date d.

Definition requests_post (rq : request) : io response :=
  fun log => (actor log rq, (log ++ [rq])%list).

Definition fetch_request (username token : string) (per_page total_posts : Z)
  : request :=
  {| req_url := APIFY_ACTOR_ENDPOINT +:+ "?token=" +:+ token;
     req_username := username;
     req_limit := per_page;
     req_total_posts := total_posts;
     req_timeout := 300 |}.

Definition run_fetch (username token : string) (per_page total_posts : Z)
  : io (list value) :=
  let! resp := requests_post (fetch_request username token per_page total_posts) in
  if negb (resp_ok resp) then
    io_raise (RuntimeError ("Apify error " +:+ str_of_Z (status_code resp)
                              +:+ ": " +:+ text resp))
  else
    let! data := io_lift (json resp) in
    io_ret (match data with VList l => l | _ => [] end).

(** The loop that keeps the posts dated within [[start, end_]]. *)
Fixpoint filter_in_range (start end_ : datetime) (items : list value)
  : result (list value) :=
  match items with
  | [] => Ok []
  | p :: ps =>
      let* dt := post_date p in
      let* keep :=
        match dt with
        | None => Ok false
        | Some d =>
            let* after := dt_le start d in
            if after then dt_le d end_ else Ok false
        end in
      let* rest := filter_in_range start end_ ps in
      Ok (if keep then p :: rest else rest)
  end.

Definition sort_key (p : value) : result datetime :=
  let* d := post_date p in Ok (default datetime_min d).

(** Whether the first batch calls for the second request. *)
Definition wants_retry (start : datetime) (target_total : Z) (all_items : list value)
  : result bool :=
  let* parsed_dates := traverse post_date all_items in
  let valid_dates := omap id parsed_dates in
  let* min_dt :=
    match valid_dates with
    | [] => Ok None
    | _ => let* m := py_min valid_dates in Ok (Some m)
    end in
  match min_dt with
  | None => Ok true
  | Some m =>
      let* later := dt_gt m start in
      Ok (later && (Z.min target_total 1000 <=? Z.of_nat (length all_items)))
  end.

Definition fetch_posts_bulk (username token : string) (start end_ : datetime)
    (target_total per_page : Z) : io (list value * list value) :=
  let! all_items := run_fetch username token per_page target_total in
  let! all_items :=
    if truthy (VList all_items) then
      let! retry := io_lift (wants_retry start target_total all_items) in
      if retry then run_fetch username token per_page (Z.max 10000 (target_total * 2))
      else io_ret all_items
    else io_ret all_items in
  let! in_range := io_lift (filter_in_range start end_ all_items) in
  let! in_range := io_lift (sort_reverse_by sort_key in_range) in
  io_ret (all_items, in_range).

(** *** Tabular export *)

(** How the CSV writer renders one cell, before quoting. *)
Definition csv_text (v : value) : string :=
  match v with
  | VNone => EmptyString
  | _ => py_str v
  end.

Definition csv_field (v : value) : string :=
  let s := csv_text v in
  if needs_quote s then csv_quote s else s.

(** [writer.writerow(row)]: a lone empty field is written quoted. *)
Definition writerow (row : list value) : string :=
  match row with
  | [v] => match csv_text v with
           | EmptyString => csv_quote EmptyString
           | _ => csv_field v
           end
  | _ => join "," (map csv_field row)
  end +:+ String CR (String LF EmptyString).

Definition csv_document (rows : list (list value)) : string :=
  fold_right String.app EmptyString (map writerow rows).

Definition posts_to_csv (posts : list value) : result (list Byte.byte) :=
  let* rows := traverse post_row posts in
  Ok (encode_utf8 (csv_document (map VStr headers :: rows))).

(** *** The handler of the "Generate CSV" button *)

Definition on_generate (profile_url token_input : string)
    (per_page_input target_total_input : Z) (start_date end_date : date)
  : list request -> list ui_event * list request :=
  fun log =>
    let token := strip token_input in
    if negb (truthy (VStr profile_url)) then
      ([StError "Please enter a LinkedIn profile URL."; StStop], log)
    else
      let username := extract_username profile_url in
      let start_dt := combine_min start_date in
      let end_dt := combine_max end_date in
      let spinner := StSpinner "Fetching posts from Apify..." in
      match fetch_posts_bulk username token start_dt end_dt
              target_total_input per_page_input log with
      | (Raise e, log') => ([spinner; StError ("Error: " +:+ exn_str e)], log')
      | (Ok (all_items, posts), log') =>
          let success :=
            StSuccess ("Retrieved " +:+ str_of_Z (Z.of_nat (length all_items))
                         +:+ " total posts from Apify; "
                         +:+ str_of_Z (Z.of_nat (length posts))
                         +:+ " within selected range") in
          match posts_to_csv posts with
          | Raise e => ([spinner; success; StError ("Error: " +:+ exn_str e)], log')
          | Ok csv_bytes =>
              let filename :=
                "linkedin_posts_" +:+ isoformat start_date +:+ "_to_"
                  +:+ isoformat end_date +:+ ".csv" in
              ([spinner; success;
                StDownloadButton "Download CSV" csv_bytes filename "text/csv";
                StJson (take 3 posts)], log')
          end
      end.

End Pipeline.

(** ** Credential lookup *)

(** [get_apify_token]: [secrets_get] is the outcome of
    [st.secrets.get("APIFY_TOKEN")], which raises when there is no secrets
    store and yields [None] for a missing key; [getenv] is
    [os.getenv("APIFY_TOKEN")], [None] when the variable is unset. *)
Definition get_apify_token (secrets_get : result value) (getenv : value)
  : result value :=
  let* token := try_except secrets_get (fun _ => Ok VNone) in
  let token := if negb (truthy token) then getenv else token in
  Ok token.

(** ** A concrete environment for running the model *)

(** The value of a string of decimal digits. *)
Fixpoint digits_value (acc : Z) (s : string) : option Z :=
  match s with
  | EmptyString => Some acc
  | String c r =>
      let n := Z.of_N (N_of_ascii c) in
      if (48 <=? n) && (n <=? 57) then digits_value (acc * 10 + (n - 48)) r
      else None
  end.

Definition parser_error (s : string) : exn :=
  LibraryError "ParserError" ("Unknown string format: " +:+ s).

(** A parser for calendar dates [YYYY-MM-DD], naive, or timezone-aware at
    UTC when followed by [Z]; everything else is rejected. *)
Definition sample_parse (s : string) : result datetime :=
  match digits_value 0 (substring 0 4 s), digits_value 0 (substring 5 2 s),
        digits_value 0 (substring 8 2 s) with
  | Some y, Some m, Some d =>
      if String.eqb (substring 4 1 s) "-" && String.eqb (substring 7 1 s) "-"
         && (String.length s =? 10)%nat
      then Ok (combine_min (mkDate y m d))
      else if String.eqb (substring 4 1 s) "-" && String.eqb (substring 7 1 s) "-"
              && String.eqb (substring 10 (String.length s - 10) s) "Z"
      then Ok (mkDatetime (wall (combine_min (mkDate y m d))) (Some 0))
      else Raise (parser_error s)
  | _, _, _ => Raise (parser_error s)
  end.

Definition sample_repr (v : value) : string := "<" +:+ type_name v +:+ ">".

(** An actor that answers the n-th request of a run with the n-th entry of a
    script, and fails to connect afterwards. *)
Definition scripted_actor (script : list (result response))
  : list request -> request -> result response :=
  fun log _ =>
    nth (length log) script (Raise (LibraryError "ConnectionError" "no more answers")).

(** A successful answer carrying a list of posts. *)
Definition answer (posts : list value) : result response :=
  Ok (mkResponse 200 EmptyString (Ok (VList posts))).

(** A post that only has a date. *)
Definition post_dated (d : string) : value :=
  VDict {[ "posted_at" := VDict {[ "date" := VStr d ]} ]}.

(** A post that has a date and a URL. *)
Definition post_at (d url : string) : value :=
  VDict (<[ "url" := VStr url ]> {[ "posted_at" := VDict {[ "date" := VStr d ]} ]}).

(** A post whose [posted_at] is JSON [null]. *)
Definition post_null_date : value :=
  VDict {[ "posted_at" := VNone ]}.

Definition jan1 : datetime := combine_min (mkDate 2025 1 1).
Definition dec31 : datetime := combine_max (mkDate 2025 12 31).

Definition sample_fetch (script : list (result response)) (target_total : Z)
  : result (list value * list value) * list request :=
  fetch_posts_bulk sample_parse sample_repr (scripted_actor script)
    "janedoe" "tok" jan1 dec31 target_total 100 [].


Definition post_a : value := post_at "2025-03-01" "https://example.org/a".
Definition post_b : value := post_at "2025-03-01" "https://example.org/b".
Definition post_may : value := post_dated "2025-05-01".

(** A batch with a tie, an unparseable date and a date out of range, and
    what the run keeps of it. *)
Definition sample_batch : list value :=
  [post_a; post_dated "junk"; post_may; post_dated "2024-05-01"; post_b].
Definition sample_in_range : list value := [post_may; post_a; post_b].

Definition sample_request (total_posts : Z) : request :=
  fetch_request "janedoe" "tok" 100 total_posts.

Definition march1 : datetime := combine_min (mkDate 2025 3 1).

(** An answer with status 500. *)
Definition server_error : response :=
  mkResponse 500 "boom" (Raise (LibraryError "JSONDecodeError" "Expecting value")).


(** ** Vocabulary of the properties *)

Fixpoint all_chars (P : ascii -> bool) (s : string) : bool :=
  match s with
  | EmptyString => true
  | String c r => P c && all_chars P r
  end.

(** What may follow a captured segment: nothing, or a delimiter. *)
Definition segment_ends (rest : string) : bool :=
  match rest with
  | EmptyString => true
  | String c _ => is_delim c
  end.

(** [s] reads [pre], then the profile prefix, then the non-empty segment
    [seg] free of delimiters, then [rest]. *)
Definition profile_path_at (s pre seg rest : string) : Prop :=
  s = pre +:+ profile_prefix +:+ seg +:+ rest
  /\ seg <> EmptyString
  /\ all_chars (fun c => negb (is_delim c)) seg = true
  /\ segment_ends rest = true.






Definition is_dict (v : value) : bool :=
  match v with
  | VDict _ => true
  | _ => false
  end.


(** Whether a datetime is timezone-aware, and the point in time it
    denotes among the datetimes of its kind. *)
Definition aware (d : datetime) : bool :=
  match utcoffset d with
  | Some _ => true
  | None => false
  end.

Definition instant (d : datetime) : Z :=
  match utcoffset d with
  | Some o => wall d - o
  | None => wall d
  end.

(** [d == t] on datetimes. *)
Definition dt_eqb (d t : datetime) : bool :=
  Bool.eqb (aware d) (aware t) && (instant d =? instant t).

(** [a] is not earlier than [b]. *)
Definition not_before (a b : datetime) : Prop := dt_lt a b = Ok false.

(** The same notions on the pairs of a key and a post that the sort
    handles. *)
Definition key_not_before (a b : datetime * value) : Prop :=
  not_before (fst a) (fst b).

Definition keyed_at (t : datetime) (kp : datetime * value) : bool :=
  dt_eqb (fst kp) t.

(** The posts of a decoded response body. *)
Definition items_of (data : value) : list value :=
  match data with
  | VList l => l
  | _ => []
  end.

(** The post has a timestamp that parses and lies in [[start, end_]]. *)
Definition within (parse : string -> result datetime) (repr : value -> string)
    (start end_ : datetime) (p : value) : bool :=
  match post_date parse repr p with
  | Ok (Some d) =>
      match dt_le start d, dt_le d end_ with
      | Ok true, Ok true => true
      | _, _ => false
      end
  | _ => false
  end.

(** The post has a timestamp that parses and equals [t]. *)
Definition has_time (parse : string -> result datetime) (repr : value -> string)
    (t : datetime) (p : value) : bool :=
  match post_date parse repr p with
  | Ok (Some d) => dt_eqb d t
  | _ => false
  end.

(** Both posts have a timestamp that parses, and that of [q] is not later
    than that of [p]. *)
Definition newer_first (parse : string -> result datetime) (repr : value -> string)
    (p q : value) : Prop :=
  exists dp dq, post_date parse repr p = Ok (Some dp)
    /\ post_date parse repr q = Ok (Some dq) /\ dt_le dq dp = Ok true.

(** The condition for the second request, on the outcomes of parsing the
    timestamp of every item of the first batch: no item has a timestamp that
    parsed, or the earliest timestamp that parsed is later than [start] and
    the batch has at least [min(target_total, 1000)] items. *)
Definition retry_trigger (parse : string -> result datetime) (repr : value -> string)
    (start : datetime) (target_total : Z) (batch : list value) : Prop :=
  exists outcomes : list (option datetime),
    Forall2 (fun p o => post_date parse repr p = Ok o) batch outcomes
    /\ ((forall d, Some d ∉ outcomes)
        \/ exists m, Some m ∈ outcomes
             /\ (forall d, Some d ∈ outcomes -> dt_le m d = Ok true)
             /\ dt_gt m start = Ok true
             /\ Z.min target_total 1000 <= Z.of_nat (length batch)).

(** A pair the sort works on whose key is the timestamp of its post. *)
Definition keyed (parse : string -> result datetime) (repr : value -> string)
    (kp : datetime * value) : Prop :=
  post_date parse repr (snd kp) = Ok (Some (fst kp)).

(** What a fetch returns or raises for the answer the actor gives. *)
Definition fetched (a : result response) : result (list value) :=
  match a with
  | Raise e => Raise e
  | Ok r =>
      if resp_ok r then
        match json r with
        | Ok data => Ok (items_of data)
        | Raise e => Raise e
        end
      else Raise (RuntimeError ("Apify error " +:+ str_of_Z (status_code r)
                                  +:+ ": " +:+ text r))
  end.

(** The filter and the sort, applied to the final batch. *)
Definition finish (parse : string -> result datetime) (repr : value -> string)
    (start end_ : datetime) (items : list value) : result (list value * list value) :=
  let* l := filter_in_range parse repr start end_ items in
  let* r := sort_reverse_by (sort_key parse repr) l in
  Ok (items, r).

(** Every element of the first list is in the second, and not conversely. *)
Definition strict_subset (l1 l2 : list value) : Prop :=
  (forall p, p ∈ l1 -> p ∈ l2) /\ ~ (forall p, p ∈ l2 -> p ∈ l1).

(** [sub] occurs in [s]. *)
Definition contains (s sub : string) : Prop :=
  exists a b, s = a +:+ sub +:+ b.

(** The timestamp of the post can be read, and when it parses it is of the
    same kind, naive or aware, as the bounds of the range. *)
Definition readable (parse : string -> result datetime) (repr : value -> string)
    (start end_ : datetime) (p : value) : Prop :=
  exists o, post_date parse repr p = Ok o
    /\ forall d, o = Some d -> aware d = aware start /\ aware d = aware end_.

(** The record is a dictionary whose [posted_at] is absent or is itself a
    dictionary. *)
Definition well_shaped (p : value) : bool :=
  match p with
  | VDict d =>
      match d !! "posted_at" with
      | None => true
      | Some v => is_dict v
      end
  | _ => false
  end.

(** The exception raised by [.get] on a value that is not a dictionary. *)
Definition no_get (v : value) : exn :=
  AttributeError ("'" +:+ type_name v +:+ "' object has no attribute 'get'").

(** The character [c] does not occur in [s]. *)
Definition lacks (c : ascii) (s : string) : bool :=
  all_chars (fun x => negb (Ascii.eqb x c)) s.

(** The day number of a naive timestamp, as [date.toordinal] counts. *)
Definition ordinal_of (d : datetime) : Z := wall d / us_per_day + 1.

(** A response with status 200 and the given decoded body. *)
Definition ok_response (body : result value) : response :=
  mkResponse 200 EmptyString body.

Definition decode_error : exn :=
  LibraryError "JSONDecodeError" "Expecting value".

Definition connection_error : exn :=
  LibraryError "ConnectionError" "Connection refused".

(** A post without [posted_at], and a post whose [posted_at] has no date. *)
Definition post_undated : value := VDict {[ "url" := VStr "https://example.org/u" ]}.
Definition post_empty_date : value := VDict {[ "posted_at" := VDict ∅ ]}.

Definition sample_on_generate (script : list (result response)) (profile_url : string)
  : list ui_event * list request :=
  on_generate sample_parse sample_repr (scripted_actor script) profile_url " tok "
    100 100 (mkDate 2025 1 1) (mkDate 2025 12 31) [].

(** *** Reading a document back *)















(** * Properties *)

(** ** Strings *)

Lemma app_cons (c : ascii) (s t : string) : String c s +:+ t = String c (s +:+ t).
Proof. reflexivity. Qed.

Lemma app_empty_l (t : string) : EmptyString +:+ t = t.
Proof. reflexivity. Qed.

Ltac str_simpl :=
  repeat (rewrite app_cons in * || rewrite app_empty_l in * ); simpl in *.

Lemma app_empty_r (s : string) : s +:+ EmptyString = s.
Proof. induction s as [|c s IH]; str_simpl; [reflexivity | now rewrite IH]. Qed.

Lemma app_assoc_str (a b c : string) : (a +:+ b) +:+ c = a +:+ b +:+ c.
Proof. induction a as [|x a IH]; str_simpl; [reflexivity | now rewrite IH]. Qed.

Lemma strip_prefix_Some (p s r : string) :
  strip_prefix p s = Some r <-> s = p +:+ r.
Proof.
  revert s; induction p as [|a p IH]; intros s; str_simpl.
  - split; [now intros [= ->] | now intros ->].
  - destruct s as [|b s].
    + split; discriminate.
    + destruct (Ascii.eqb_spec a b) as [->|Hne].
      * rewrite IH. split; [now intros -> | now intros [= ->]].
      * split; [discriminate | intros [= -> _]; now destruct Hne].
Qed.

Lemma segment_split (s : string) :
  exists rest, s = segment s +:+ rest
    /\ all_chars (fun c => negb (is_delim c)) (segment s) = true
    /\ segment_ends rest = true.
Proof.
  induction s as [|c s (rest & Hs & Hall & Hend)]; simpl.
  - exists EmptyString. auto.
  - destruct (is_delim c) eqn:Hc.
    + exists (String c s). simpl. auto.
    + exists rest. str_simpl. rewrite Hc, Hall, <- Hs. auto.
Qed.

Lemma segment_app (seg rest : string) :
  all_chars (fun c => negb (is_delim c)) seg = true ->
  segment_ends rest = true ->
  segment (seg +:+ rest) = seg.
Proof.
  induction seg as [|c seg IH]; intros Hall Hend; str_simpl.
  - destruct rest as [|d rest]; simpl in *; [reflexivity | now rewrite Hend].
  - apply andb_true_iff in Hall as [Hc Hall].
    apply negb_true_iff in Hc. rewrite Hc, IH; auto.
Qed.

Lemma match_here_Some (s g : string) :
  match_here s = Some g <-> exists rest, profile_path_at s EmptyString g rest.
Proof.
  unfold match_here, profile_path_at. split.
  - destruct (strip_prefix profile_prefix s) as [r|] eqn:Hp; [|discriminate].
    apply strip_prefix_Some in Hp.
    destruct (segment_split r) as (rest & Hr & Hall & Hend).
    destruct (segment r) as [|c seg] eqn:Hseg; [discriminate|].
    intros [= <-]. exists rest.
    split; [|split; [discriminate | split; assumption]].
    rewrite Hp, Hr. reflexivity.
  - intros (rest & Hs & Hne & Hall & Hend). rewrite app_empty_l in Hs.
    assert (Hp : strip_prefix profile_prefix s = Some (g +:+ rest))
      by (apply strip_prefix_Some; exact Hs).
    rewrite Hp, segment_app by assumption.
    destruct g; [now destruct Hne | reflexivity].
Qed.









(** ** C7: identifier extraction *)


(** ** The result monad *)

Lemma rbind_Ok {A B} (m : result A) (k : A -> result B) (b : B) :
  rbind m k = Ok b <-> exists a, m = Ok a /\ k a = Ok b.
Proof.
  destruct m as [a|e]; simpl.
  - split; [eauto | now intros (a' & [= <-] & H)].
  - split; [discriminate | now intros (a' & [=] & _)].
Qed.

Lemma traverse_Ok {A B} (f : A -> result B) (l : list A) (ys : list B) :
  traverse f l = Ok ys <-> Forall2 (fun x y => f x = Ok y) l ys.
Proof.
  revert ys; induction l as [|x l IH]; intros ys; simpl.
  - split; [intros [= <-]; constructor | now inversion 1].
  - rewrite rbind_Ok. split.
    + intros (y & Hy & H). apply rbind_Ok in H as (zs & Hzs & [= <-]).
      constructor; [exact Hy | now apply IH].
    + inversion 1 as [|? y ? zs Hy Hzs]; subst. exists y. split; [exact Hy|].
      apply rbind_Ok. exists zs. split; [now apply IH | reflexivity].
Qed.


(** ** Dotted-path lookup *)





(** ** Ordering of datetimes *)

Lemma dt_compare_spec (op : Z -> Z -> bool) (a b : datetime) :
  dt_compare op a b
  = if Bool.eqb (aware a) (aware b) then Ok (op (instant a) (instant b))
    else Raise naive_aware_error.
Proof.
  unfold dt_compare, aware, instant.
  destruct (utcoffset a), (utcoffset b); reflexivity.
Qed.

Lemma dt_compare_Ok (op : Z -> Z -> bool) (a b : datetime) (r : bool) :
  dt_compare op a b = Ok r <-> aware a = aware b /\ op (instant a) (instant b) = r.
Proof.
  rewrite dt_compare_spec. destruct (Bool.eqb_spec (aware a) (aware b)) as [E|E].
  - split; [now intros [= <-] | now intros [_ <-]].
  - split; [discriminate | now intros [? _]].
Qed.

Lemma dt_lt_true (a b : datetime) :
  dt_lt a b = Ok true <-> aware a = aware b /\ instant a < instant b.
Proof. unfold dt_lt. rewrite dt_compare_Ok, Z.ltb_lt. reflexivity. Qed.

Lemma dt_lt_false (a b : datetime) :
  dt_lt a b = Ok false <-> aware a = aware b /\ instant b <= instant a.
Proof. unfold dt_lt. rewrite dt_compare_Ok, Z.ltb_ge. reflexivity. Qed.

Lemma dt_le_true (a b : datetime) :
  dt_le a b = Ok true <-> aware a = aware b /\ instant a <= instant b.
Proof. unfold dt_le. rewrite dt_compare_Ok, Z.leb_le. reflexivity. Qed.

Lemma dt_gt_true (a b : datetime) :
  dt_gt a b = Ok true <-> aware a = aware b /\ instant b < instant a.
Proof. unfold dt_gt. rewrite dt_compare_Ok, Z.gtb_ltb, Z.ltb_lt. reflexivity. Qed.

Lemma dt_compare_total (op : Z -> Z -> bool) (a b : datetime) :
  aware a = aware b -> dt_compare op a b = Ok (op (instant a) (instant b)).
Proof. intros E. rewrite dt_compare_spec, E, Bool.eqb_reflx. reflexivity. Qed.

Lemma dt_eqb_true (d t : datetime) :
  dt_eqb d t = true <-> aware d = aware t /\ instant d = instant t.
Proof.
  unfold dt_eqb. rewrite andb_true_iff, Bool.eqb_true_iff, Z.eqb_eq. reflexivity.
Qed.

Lemma not_before_trans (a b c : datetime) :
  not_before a b -> not_before b c -> not_before a c.
Proof.
  unfold not_before. rewrite !dt_lt_false. intros [E1 H1] [E2 H2].
  split; [congruence | lia].
Qed.

(** ** The minimum of a list of datetimes *)

Lemma py_min_from_spec (l : list datetime) (best m : datetime) :
  py_min_from best l = Ok m ->
  (m = best \/ In m l) /\ dt_le m best = Ok true
  /\ Forall (fun d => dt_le m d = Ok true) l.
Proof.
  revert best; induction l as [|d ds IH]; intros best; simpl.
  - intros [= <-]. split; [now left|]. split; [|constructor].
    apply dt_le_true. split; [reflexivity | lia].
  - rewrite rbind_Ok. intros (b & Hb & Hm).
    destruct (IH _ Hm) as (Hin & Hle & Hall).
    rewrite Forall_forall in Hall. rewrite Forall_forall.
    setoid_rewrite dt_le_true in Hall. setoid_rewrite dt_le_true.
    rewrite dt_le_true in *. destruct b; simpl in Hin, Hle;
      destruct Hle as [Em Hle].
    + apply dt_lt_true in Hb as [E Hlt].
      split; [destruct Hin as [->|]; simpl; auto|].
      split; [split; [congruence | lia]|].
      intros x Hx. apply elem_of_cons in Hx as [->|Hx]; [easy | now apply Hall].
    + apply dt_lt_false in Hb as [E Hge].
      split; [destruct Hin as [->|]; simpl; auto|].
      split; [easy|].
      intros x Hx. apply elem_of_cons in Hx as [->|Hx]; [|now apply Hall].
      split; [congruence | lia].
Qed.

Lemma py_min_spec (l : list datetime) (m : datetime) :
  py_min l = Ok m -> In m l /\ Forall (fun d => dt_le m d = Ok true) l.
Proof.
  destruct l as [|d ds]; [discriminate|]. simpl. intros H.
  destruct (py_min_from_spec _ _ _ H) as (Hin & Hle & Hall).
  split; [destruct Hin as [->|]; auto | now constructor].
Qed.

Lemma py_min_from_total (l : list datetime) (best : datetime) :
  Forall (fun d => aware d = aware best) l -> exists m, py_min_from best l = Ok m.
Proof.
  revert best; induction l as [|d ds IH]; intros best Hall; simpl; [eauto|].
  inversion Hall as [|? ? Hd Hds]; subst.
  unfold dt_lt. rewrite dt_compare_total by exact Hd. simpl.
  apply IH. destruct (instant d <? instant best); [|exact Hds].
  eapply Forall_impl; [exact Hds|]. simpl. congruence.
Qed.

(** ** Sorting with the newest first *)

Lemma insert_newest_perm (x : datetime * value) (l r : list (datetime * value)) :
  insert_newest x l = Ok r -> Permutation r (x :: l).
Proof.
  revert r; induction l as [|y ys IH]; intros r; simpl.
  - now intros [= <-].
  - rewrite rbind_Ok. intros ([] & _ & H).
    + apply rbind_Ok in H as (r' & Hr' & [= <-]).
      rewrite (IH _ Hr'). apply perm_swap.
    + now injection H as <-.
Qed.

Lemma insert_newest_sorted (x : datetime * value) (l r : list (datetime * value)) :
  StronglySorted key_not_before l -> insert_newest x l = Ok r ->
  StronglySorted key_not_before r.
Proof.
  revert r; induction l as [|y ys IH]; intros r Hs; simpl.
  - intros [= <-]. repeat constructor.
  - inversion Hs as [|? ? Hys Hy]; subst.
    rewrite rbind_Ok. intros ([] & Hb & H).
    + apply rbind_Ok in H as (r' & Hr' & [= <-]).
      constructor; [now apply IH|].
      rewrite (insert_newest_perm _ _ _ Hr'). constructor; [|exact Hy].
      unfold key_not_before, not_before.
      apply dt_lt_true in Hb. apply dt_lt_false. split; [easy | lia].
    + injection H as <-. constructor; [exact Hs|].
      constructor; [exact Hb|].
      eapply Forall_impl; [exact Hy|]. intros z Hz.
      unfold key_not_before in *. eapply not_before_trans; eassumption.
Qed.

Lemma insert_newest_stable (t : datetime) (x : datetime * value)
    (l r : list (datetime * value)) :
  insert_newest x l = Ok r ->
  List.filter (keyed_at t) r = List.filter (keyed_at t) (x :: l).
Proof.
  revert r; induction l as [|y ys IH]; intros r; simpl.
  - now intros [= <-].
  - rewrite rbind_Ok. intros ([] & Hb & H).
    + apply rbind_Ok in H as (r' & Hr' & [= <-]).
      simpl. rewrite (IH _ Hr'). simpl.
      destruct (keyed_at t x) eqn:Hx, (keyed_at t y) eqn:Hy; try reflexivity.
      unfold keyed_at in *. apply dt_eqb_true in Hx, Hy.
      apply dt_lt_true in Hb. lia.
    + now injection H as <-.
Qed.

Lemma insert_newest_total (x : datetime * value) (l : list (datetime * value)) :
  Forall (fun y => aware (fst y) = aware (fst x)) l ->
  exists r, insert_newest x l = Ok r.
Proof.
  induction 1 as [|y ys Hy _ (r & IH)]; simpl; [eauto|].
  unfold dt_lt. rewrite dt_compare_total by (symmetry; exact Hy). simpl.
  destruct (instant (fst x) <? instant (fst y)); [|eauto].
  rewrite IH. simpl. eauto.
Qed.

Lemma sort_pairs_spec (l s : list (datetime * value)) :
  sort_pairs l = Ok s ->
  Permutation s l /\ StronglySorted key_not_before s
  /\ forall t, List.filter (keyed_at t) s = List.filter (keyed_at t) l.
Proof.
  revert s; induction l as [|x xs IH]; intros s; simpl.
  - intros [= <-]. repeat constructor.
  - rewrite rbind_Ok. intros (s' & Hs' & Hins).
    destruct (IH _ Hs') as (Hperm & Hsorted & Hstable). split; [|split].
    + rewrite (insert_newest_perm _ _ _ Hins). now constructor.
    + eapply insert_newest_sorted; eassumption.
    + intros t. rewrite (insert_newest_stable t _ _ _ Hins). simpl.
      now rewrite Hstable.
Qed.

Lemma sort_pairs_total (b : bool) (l : list (datetime * value)) :
  Forall (fun y => aware (fst y) = b) l -> exists s, sort_pairs l = Ok s.
Proof.
  induction 1 as [|x xs Hx Hxs (s & IH)]; simpl; [eauto|].
  rewrite IH. simpl. apply insert_newest_total.
  destruct (sort_pairs_spec _ _ IH) as (Hperm & _).
  rewrite Hperm. eapply Forall_impl; [exact Hxs|]. simpl. congruence.
Qed.

Section Properties.

Variable parse : string -> result datetime.
Variable repr : value -> string.
Variable actor : list request -> request -> result response.

(** ** C6: date parsing *)

(** C6. [parse_post_date] never raises: for every value it returns either
    the timestamp the parser produced for the text of the value, or [None];
    for a value that is empty or absent ([None], the empty string, any
    value that is false) it returns [None] whatever the parser would do. *)
Theorem parse_post_date_total (v : value) :
  (exists r, parse_post_date parse repr v = Ok r
     /\ forall d, r = Some d -> parse (py_str repr v) = Ok d)
  /\ (truthy v = false ->
      forall parse', parse_post_date parse' repr v = Ok None).
Proof.
  unfold parse_post_date. split.
  - destruct (truthy v); simpl.
    + destruct (parse (py_str repr v)) as [d|e]; simpl.
      * exists (Some d). split; [reflexivity | now intros ? [= <-]].
      * exists None. split; [reflexivity | discriminate].
    + exists None. split; [reflexivity | discriminate].
  - intros -> parse'. reflexivity.
Qed.

(** ** C9 and C10: tabular export *)


(** *** Reading the document back *)






























End Properties.

Section Fetch.

Variable parse : string -> result datetime.
Variable repr : value -> string.
Variable actor : list request -> request -> result response.

(** ** Filtering and sorting one batch *)

Lemma filter_in_range_spec (start end_ : datetime) (items l : list value) :
  filter_in_range parse repr start end_ items = Ok l ->
  l = List.filter (within parse repr start end_) items.
Proof.
  revert l; induction items as [|p ps IH]; intros l; simpl.
  - now intros [= <-].
  - rewrite rbind_Ok. intros (dt & Hdt & H).
    apply rbind_Ok in H as (keep & Hkeep & H).
    apply rbind_Ok in H as (rest & Hrest & [= <-]).
    rewrite <- (IH _ Hrest).
    assert (Hw : within parse repr start end_ p = keep); [|now rewrite Hw].
    unfold within. rewrite Hdt.
    destruct dt as [d|]; [|now injection Hkeep as <-].
    apply rbind_Ok in Hkeep as (after & Hafter & Hkeep). rewrite Hafter.
    destruct after; [rewrite Hkeep; now destruct keep|].
    injection Hkeep as <-. reflexivity.
Qed.

Lemma within_true (start end_ : datetime) (p : value) :
  within parse repr start end_ p = true <->
  exists d, post_date parse repr p = Ok (Some d)
    /\ dt_le start d = Ok true /\ dt_le d end_ = Ok true.
Proof.
  unfold within. split.
  - destruct (post_date parse repr p) as [[d|]|]; try discriminate.
    destruct (dt_le start d) as [[]|] eqn:H1; try discriminate.
    destruct (dt_le d end_) as [[]|] eqn:H2; try discriminate.
    intros _. exists d. auto.
  - intros (d & -> & -> & ->). reflexivity.
Qed.

Lemma zip_keys (l : list value) (keys : list datetime) :
  Forall (fun p => exists d, post_date parse repr p = Ok (Some d)) l ->
  Forall2 (fun p k => sort_key parse repr p = Ok k) l keys ->
  map snd (zip keys l) = l /\ Forall (keyed parse repr) (zip keys l).
Proof.
  intros Hl H. induction H as [|p k l keys Hk _ IH]; simpl.
  - split; constructor.
  - inversion Hl as [|? ? (d & Hd) Hl']; subst.
    destruct (IH Hl') as [-> Hall]. split; [reflexivity|].
    constructor; [|exact Hall]. unfold keyed, sort_key in *. simpl.
    rewrite Hd in Hk. simpl in Hk. injection Hk as <-. exact Hd.
Qed.

Lemma keyed_filter (t : datetime) (s : list (datetime * value)) :
  Forall (keyed parse repr) s ->
  List.filter (has_time parse repr t) (map snd s)
  = map snd (List.filter (keyed_at t) s).
Proof.
  induction 1 as [|kp s Hkp _ IH]; simpl; [reflexivity|].
  unfold has_time at 1, keyed_at at 1. rewrite Hkp.
  destruct (dt_eqb (fst kp) t); simpl; now rewrite IH.
Qed.

Lemma keyed_sorted (s : list (datetime * value)) :
  Forall (keyed parse repr) s -> StronglySorted key_not_before s ->
  StronglySorted (newer_first parse repr) (map snd s).
Proof.
  intros Hk Hs. induction Hs as [|kp s _ IH Hall]; simpl; constructor.
  - apply IH. now inversion Hk.
  - inversion Hk as [|? ? Hkp Hks]; subst. apply Forall_map.
    rewrite Forall_forall in *. intros kq Hq.
    exists (fst kp), (fst kq). split; [exact Hkp|]. split; [now apply Hks|].
    specialize (Hall _ Hq). unfold key_not_before, not_before in Hall.
    apply dt_lt_false in Hall. apply dt_le_true. easy.
Qed.

Lemma sort_reverse_by_spec (l r : list value) :
  Forall (fun p => exists d, post_date parse repr p = Ok (Some d)) l ->
  sort_reverse_by (sort_key parse repr) l = Ok r ->
  Permutation r l
  /\ StronglySorted (newer_first parse repr) r
  /\ forall t, List.filter (has_time parse repr t) r
               = List.filter (has_time parse repr t) l.
Proof.
  intros Hl. unfold sort_reverse_by. rewrite rbind_Ok.
  intros (keys & Hkeys & H). apply rbind_Ok in H as (s & Hs & [= <-]).
  apply traverse_Ok in Hkeys. destruct (zip_keys _ _ Hl Hkeys) as [Hsnd Hkeyed].
  destruct (sort_pairs_spec _ _ Hs) as (Hperm & Hsorted & Hstable).
  assert (Hks : Forall (keyed parse repr) s) by now rewrite Hperm.
  split; [|split].
  - rewrite <- Hsnd. now apply Permutation_map.
  - now apply keyed_sorted.
  - intros t. rewrite <- Hsnd.
    rewrite !keyed_filter by assumption. now rewrite Hstable.
Qed.

(** ** The course of a run *)

Lemma run_fetch_eq (u t : string) (pp n : Z) (log : list request) :
  run_fetch actor u t pp n log
  = (fetched (actor log (fetch_request u t pp n)),
     (log ++ [fetch_request u t pp n])%list).
Proof.
  unfold run_fetch, io_bind, requests_post, io_raise, io_lift, io_ret, fetched.
  destruct (actor log (fetch_request u t pp n)) as [r|e]; [|reflexivity].
  destruct (resp_ok r); simpl; [|reflexivity].
  destruct (json r) as [data|e]; [|reflexivity]. now destruct data.
Qed.

(** A run is one fetch, the decision on its batch, possibly a second
    fetch, and the filter and sort of the final batch. *)
Lemma fetch_posts_bulk_eq (u t : string) (start end_ : datetime) (tt pp : Z)
    (log : list request) :
  let rq1 := fetch_request u t pp tt in
  let rq2 := fetch_request u t pp (Z.max 10000 (tt * 2)) in
  fetch_posts_bulk parse repr actor u t start end_ tt pp log
  = match fetched (actor log rq1) with
    | Raise e => (Raise e, (log ++ [rq1])%list)
    | Ok [] => (finish parse repr start end_ [], (log ++ [rq1])%list)
    | Ok (x :: xs) =>
        match wants_retry parse repr start tt (x :: xs) with
        | Raise e => (Raise e, (log ++ [rq1])%list)
        | Ok false => (finish parse repr start end_ (x :: xs), (log ++ [rq1])%list)
        | Ok true =>
            match fetched (actor (log ++ [rq1])%list rq2) with
            | Raise e => (Raise e, (log ++ [rq1; rq2])%list)
            | Ok items => (finish parse repr start end_ items,
                           (log ++ [rq1; rq2])%list)
            end
        end
    end.
Proof.
  intros rq1 rq2. unfold fetch_posts_bulk.
  unfold io_bind at 1. unfold io_bind at 1. rewrite run_fetch_eq. fold rq1.
  assert (Hfin : forall items l,
    (let! in_range := io_lift (filter_in_range parse repr start end_ items) in
     let! in_range0 := io_lift (sort_reverse_by (sort_key parse repr) in_range) in
     io_ret (items, in_range0)) l = (finish parse repr start end_ items, l)).
  { intros items l. unfold io_bind, io_lift, io_ret, finish.
    destruct (filter_in_range parse repr start end_ items) as [f|e]; [|reflexivity].
    simpl. now destruct (sort_reverse_by (sort_key parse repr) f). }
  destruct (fetched (actor log rq1)) as [[|x xs]|e]; [| |reflexivity].
  - cbv [truthy]. unfold io_ret at 1. apply Hfin.
  - cbv [truthy]. unfold io_bind at 1, io_lift at 1.
    destruct (wants_retry parse repr start tt (x :: xs)) as [[]|e]; [| |reflexivity].
    + rewrite run_fetch_eq. fold rq2. rewrite <- app_assoc. simpl app.
      destruct (fetched (actor (log ++ [rq1]) rq2)) as [items|e]; [|reflexivity].
      apply Hfin.
    + unfold io_ret at 1. apply Hfin.
Qed.

(** ** The decision to fetch again *)

Lemma wants_retry_trigger (start : datetime) (tt : Z) (batch : list value) :
  wants_retry parse repr start tt batch = Ok true
  <-> retry_trigger parse repr start tt batch.
Proof.
  unfold wants_retry, retry_trigger. split.
  - rewrite rbind_Ok. intros (ods & Hods & H).
    apply rbind_Ok in H as (min_dt & Hmin & H).
    exists ods. split; [now apply traverse_Ok|].
    destruct (omap id ods) as [|d0 ds] eqn:Hvalid.
    + left. intros d Hd.
      assert (Hin : d ∈ omap id ods) by (apply list_elem_of_omap; eauto).
      rewrite Hvalid in Hin. inversion Hin.
    + right. apply rbind_Ok in Hmin as (m & Hm & [= <-]).
      apply rbind_Ok in H as (later & Hlater & [= H]).
      apply andb_true_iff in H as [-> Hsize]. apply Z.leb_le in Hsize.
      apply py_min_spec in Hm as [Hin Hall]. rewrite <- Hvalid in Hin, Hall.
      exists m. split; [|split; [|split; assumption]].
      * apply list_elem_of_In, list_elem_of_omap in Hin as ([x|] & Hx & [= <-]).
        exact Hx.
      * intros d Hd. rewrite Forall_forall in Hall. apply Hall.
        apply list_elem_of_omap. eauto.
  - intros (ods & Hods & Hcases). apply traverse_Ok in Hods. rewrite Hods. simpl.
    destruct Hcases as [Hnone | (m & Hm & Hle & Hgt & Hsize)].
    + destruct (omap id ods) as [|d0 ds] eqn:Hvalid; [reflexivity|].
      destruct (Hnone d0).
      assert (Hin : d0 ∈ omap id ods) by (rewrite Hvalid; left).
      apply list_elem_of_omap in Hin as ([x|] & Hx & [= <-]). exact Hx.
    + assert (Hval : forall d, d ∈ omap id ods <-> Some d ∈ ods).
      { intros d. rewrite list_elem_of_omap. split; [|eauto].
        now intros ([x|] & Hx & [= <-]). }
      assert (Hmv : m ∈ omap id ods) by now apply Hval.
      destruct (omap id ods) as [|d0 ds] eqn:Hvalid; [inversion Hmv|].
      assert (Haw : forall d, d ∈ d0 :: ds -> aware d = aware m).
      { intros d Hd. apply Hval, Hle, dt_le_true in Hd. easy. }
      destruct (py_min_from_total ds d0) as (m' & Hm').
      { apply Forall_forall. intros d Hd.
        rewrite (Haw d) by now right. rewrite (Haw d0) by left. reflexivity. }
      simpl py_min. rewrite Hm'. simpl.
      destruct (py_min_from_spec _ _ _ Hm') as (Hin' & Hle0 & Hall').
      assert (Hin : m' ∈ d0 :: ds).
      { destruct Hin' as [->|Hin']; [left | right; now apply list_elem_of_In]. }
      assert (Hmm' : dt_le m' m = Ok true).
      { apply elem_of_cons in Hmv as [->|Hmv]; [exact Hle0|].
        rewrite Forall_forall in Hall'. now apply Hall'. }
      assert (Hm'm : dt_le m m' = Ok true) by now apply Hle, Hval.
      apply dt_le_true in Hmm' as [E1 L1]. apply dt_le_true in Hm'm as [E2 L2].
      apply dt_gt_true in Hgt as [E3 L3].
      assert (Hgt' : dt_gt m' start = Ok true)
        by (apply dt_gt_true; split; [congruence | lia]).
      rewrite Hgt'. simpl. apply Z.leb_le in Hsize. now rewrite Hsize.
Qed.

(** ** C1: the requests of a run *)


(** ** The final batch *)

Lemma elem_of_filter_bool (f : value -> bool) (l : list value) (x : value) :
  x ∈ List.filter f l <-> x ∈ l /\ f x = true.
Proof. rewrite !list_elem_of_In. apply filter_In. Qed.

Lemma filter_bool_sublist (f : value -> bool) (l : list value) :
  List.filter f l `sublist_of` l.
Proof.
  induction l as [|x l IH]; simpl; [constructor|].
  destruct (f x); now constructor.
Qed.

Lemma finish_spec (start end_ : datetime) (items all inr : list value) :
  finish parse repr start end_ items = Ok (all, inr) ->
  all = items
  /\ Permutation inr (List.filter (within parse repr start end_) items)
  /\ StronglySorted (newer_first parse repr) inr
  /\ forall t, List.filter (has_time parse repr t) inr
               = List.filter (has_time parse repr t)
                   (List.filter (within parse repr start end_) items).
Proof.
  unfold finish. rewrite rbind_Ok. intros (l & Hl & H).
  apply rbind_Ok in H as (r & Hr & [= <- <-]).
  apply filter_in_range_spec in Hl. subst l.
  split; [reflexivity|]. apply sort_reverse_by_spec; [|exact Hr].
  apply Forall_forall. intros p Hp.
  apply elem_of_filter_bool in Hp as [_ Hp]. apply within_true in Hp.
  destruct Hp as (d & Hd & _). eauto.
Qed.

Lemma filter_in_range_total (start end_ : datetime) (items : list value) :
  Forall (readable parse repr start end_) items ->
  exists l, filter_in_range parse repr start end_ items = Ok l.
Proof.
  induction 1 as [|p ps (o & Ho & Hkind) _ (l & IH)]; simpl; [eauto|].
  rewrite Ho. simpl. destruct o as [d|]; simpl.
  - destruct (Hkind d eq_refl) as [Es Ee].
    unfold dt_le. rewrite dt_compare_total by (symmetry; exact Es). simpl.
    destruct (instant start <=? instant d).
    + rewrite dt_compare_total by exact Ee. simpl. rewrite IH. simpl. eauto.
    + simpl. rewrite IH. simpl. eauto.
  - rewrite IH. simpl. eauto.
Qed.

Lemma sort_keys_total (b : bool) (l : list value) :
  Forall (fun p => exists d, post_date parse repr p = Ok (Some d) /\ aware d = b) l ->
  exists keys, traverse (sort_key parse repr) l = Ok keys
    /\ Forall (fun kp => aware (fst kp) = b) (zip keys l).
Proof.
  induction 1 as [|p ps (d & Hd & Hb) _ (keys & IH & Hall)]; simpl.
  - exists []. split; [reflexivity | constructor].
  - exists (d :: keys). unfold sort_key at 1. rewrite Hd. simpl. rewrite IH. simpl.
    split; [reflexivity | now constructor].
Qed.

(** A batch whose timestamps can all be read and compared with the bounds
    is filtered and sorted without an exception. *)
Lemma finish_total (start end_ : datetime) (items : list value) :
  Forall (readable parse repr start end_) items ->
  exists inr, finish parse repr start end_ items = Ok (items, inr).
Proof.
  intros Hr. unfold finish.
  destruct (filter_in_range_total _ _ _ Hr) as (l & Hl). rewrite Hl. simpl.
  apply filter_in_range_spec in Hl.
  destruct (sort_keys_total (aware start) l) as (keys & Hkeys & Hall).
  { subst l. apply Forall_forall. intros p Hp.
    apply elem_of_filter_bool in Hp as [_ Hp].
    apply within_true in Hp as (d & Hd & Hs & _).
    apply dt_le_true in Hs as [Hs _]. eauto. }
  unfold sort_reverse_by. rewrite Hkeys. simpl.
  destruct (sort_pairs_total _ _ Hall) as (s' & Hs'). rewrite Hs'. simpl. eauto.
Qed.

(** A run that returns has filtered and sorted the batch of its last
    fetch. *)
Lemma fetch_posts_bulk_Ok (u t : string) (start end_ : datetime) (tt pp : Z)
    (log log' : list request) (all inr : list value) :
  fetch_posts_bulk parse repr actor u t start end_ tt pp log = (Ok (all, inr), log') ->
  finish parse repr start end_ all = Ok (all, inr)
  /\ exists log0 rq, log' = (log0 ++ [rq])%list /\ fetched (actor log0 rq) = Ok all.
Proof.
  rewrite fetch_posts_bulk_eq.
  set (rq1 := fetch_request u t pp tt).
  set (rq2 := fetch_request u t pp (Z.max 10000 (tt * 2))).
  destruct (fetched (actor log rq1)) as [[|x xs]|e] eqn:Hf1; [| |discriminate].
  - intros H. apply pair_equal_spec in H as [Hfin <-].
      destruct (finish_spec _ _ _ _ _ Hfin) as [-> _].
    split; [exact Hfin | eauto].
  - destruct (wants_retry parse repr start tt (x :: xs)) as [[]|e]; [| |discriminate].
    + destruct (fetched (actor (log ++ [rq1]) rq2)) as [items|e] eqn:Hf2;
        [|discriminate].
      intros H. apply pair_equal_spec in H as [Hfin <-].
      destruct (finish_spec _ _ _ _ _ Hfin) as [-> _].
      split; [exact Hfin|]. exists (log ++ [rq1])%list, rq2.
      split; [now rewrite <- app_assoc | exact Hf2].
    + intros H. apply pair_equal_spec in H as [Hfin <-].
      destruct (finish_spec _ _ _ _ _ Hfin) as [-> _].
      split; [exact Hfin | eauto].
Qed.

(** ** C2, C3, C4: the in-range subset *)

(** C2. When a run returns, every record of the in-range subset has a
    timestamp that parses and lies between [start] and [end_] inclusive; a
    record whose timestamp does not parse is not in the subset; the other
    component is the whole batch of the last fetch, so such records are
    still counted there. *)
Theorem fetch_in_range_spec (u t : string) (start end_ : datetime) (tt pp : Z)
    (log log' : list request) (all inr : list value) :
  fetch_posts_bulk parse repr actor u t start end_ tt pp log = (Ok (all, inr), log') ->
  (forall p, p ∈ inr ->
     exists d, post_date parse repr p = Ok (Some d)
       /\ dt_le start d = Ok true /\ dt_le d end_ = Ok true)
  /\ (forall p, post_date parse repr p = Ok None -> p ∉ inr)
  /\ (forall p, p ∈ inr <-> p ∈ all /\ within parse repr start end_ p = true)
  /\ (exists log0 rq, log' = (log0 ++ [rq])%list
        /\ fetched (actor log0 rq) = Ok all).
Proof.
  intros H. apply fetch_posts_bulk_Ok in H as [Hfin Hlast].
  apply finish_spec in Hfin as (_ & Hperm & _).
  assert (Hin : forall p, p ∈ inr <-> p ∈ all /\ within parse repr start end_ p = true).
  { intros p. rewrite Hperm. apply elem_of_filter_bool. }
  split; [|split; [|split; assumption]].
  - intros p Hp. apply Hin in Hp as [_ Hp]. now apply within_true.
  - intros p Hnone Hp. apply Hin in Hp as [_ Hp].
    apply within_true in Hp as (d & Hd & _). congruence.
Qed.

(** C3. When a run returns, the in-range subset is sorted by timestamp,
    most recent first, and for every timestamp the records bearing it come
    in the order they have in the batch. *)
Theorem fetch_sorted_stable (u t : string) (start end_ : datetime) (tt pp : Z)
    (log log' : list request) (all inr : list value) :
  fetch_posts_bulk parse repr actor u t start end_ tt pp log = (Ok (all, inr), log') ->
  StronglySorted (newer_first parse repr) inr
  /\ (forall ts, List.filter (has_time parse repr ts) inr
                 = List.filter (has_time parse repr ts)
                     (List.filter (within parse repr start end_) all))
  /\ (forall ts, List.filter (has_time parse repr ts) inr `sublist_of` all).
Proof.
  intros H. apply fetch_posts_bulk_Ok in H as [Hfin _].
  apply finish_spec in Hfin as (_ & _ & Hsorted & Hstable).
  split; [exact Hsorted|]. split; [exact Hstable|].
  intros ts. rewrite Hstable.
  etransitivity; apply filter_bool_sublist.
Qed.

(** C4 (amended). When a run returns, the in-range records are exactly the
    records of the full batch whose timestamp lies in the range, each as
    many times as in the batch: every in-range record appears in the full
    batch, and there are no more of them than records in the batch. *)
Theorem fetch_in_range_subset (u t : string) (start end_ : datetime) (tt pp : Z)
    (log log' : list request) (all inr : list value) :
  fetch_posts_bulk parse repr actor u t start end_ tt pp log = (Ok (all, inr), log') ->
  (forall p, p ∈ inr -> p ∈ all)
  /\ Permutation inr (List.filter (within parse repr start end_) all)
  /\ (length inr <= length all)%nat.
Proof.
  intros H. apply fetch_posts_bulk_Ok in H as [Hfin _].
  apply finish_spec in Hfin as (_ & Hperm & _).
  split; [|split; [exact Hperm|]].
  - intros p. rewrite Hperm. intros Hp. now apply elem_of_filter_bool in Hp.
  - rewrite Hperm. apply sublist_length, filter_bool_sublist.
Qed.

(** ** C8: a non-success answer *)

Lemma fetched_non_success (r : response) :
  resp_ok r = false ->
  fetched (Ok r)
  = Raise (RuntimeError ("Apify error " +:+ str_of_Z (status_code r)
                           +:+ ": " +:+ text r)).
Proof. intros H. unfold fetched. now rewrite H. Qed.

Lemma app_split_after (log pre post l : list request) (rq : request) :
  (log ++ l)%list = (pre ++ rq :: post)%list -> (length log <= length pre)%nat ->
  exists pre', pre = (log ++ pre')%list /\ l = (pre' ++ rq :: post)%list.
Proof.
  revert pre; induction log as [|x log IH]; intros pre; simpl.
  - intros -> _. now exists pre.
  - destruct pre as [|y pre]; simpl; [lia|].
    intros [= <- H] Hlen. destruct (IH pre H) as (pre' & -> & ->); [lia|].
    now exists pre'.
Qed.

Lemma fetch_non_success (u t : string) (start end_ : datetime) (tt pp : Z)
    (log pre post : list request) (rq : request) (r : response) :
  snd (fetch_posts_bulk parse repr actor u t start end_ tt pp log)
  = (pre ++ rq :: post)%list ->
  (length log <= length pre)%nat ->
  actor pre rq = Ok r -> resp_ok r = false ->
  fst (fetch_posts_bulk parse repr actor u t start end_ tt pp log)
  = Raise (RuntimeError ("Apify error " +:+ str_of_Z (status_code r)
                           +:+ ": " +:+ text r)).
Proof.
  intros Hlog Hlen Hact Hbad. revert Hlog. rewrite fetch_posts_bulk_eq.
  set (rq1 := fetch_request u t pp tt).
  set (rq2 := fetch_request u t pp (Z.max 10000 (tt * 2))).
  pose proof (fetched_non_success r Hbad) as Hraise.
  assert (Hone : (log ++ [rq1])%list = (pre ++ rq :: post)%list ->
                 actor log rq1 = Ok r).
  { intros H. destruct (app_split_after _ _ _ _ _ H Hlen) as (pre' & -> & H').
    destruct pre' as [|a [|b pre']]; try discriminate.
    injection H' as <- <-. now rewrite app_nil_r in Hact. }
  destruct (fetched (actor log rq1)) as [[|x xs]|e] eqn:Hf1; simpl.
  - intros H. rewrite (Hone H), Hraise in Hf1. discriminate.
  - destruct (wants_retry parse repr start tt (x :: xs)) as [[]|e]; simpl.
    + assert (Htwo : (log ++ [rq1; rq2])%list = (pre ++ rq :: post)%list ->
                     actor (log ++ [rq1])%list rq2 = Ok r).
      { intros H. destruct (app_split_after _ _ _ _ _ H Hlen) as (pre' & -> & H').
        destruct pre' as [|a [|b [|c pre']]]; try discriminate.
        - injection H' as <- _. rewrite app_nil_r in Hact.
          rewrite Hact, Hraise in Hf1. discriminate.
        - injection H' as <- <- _. exact Hact. }
      destruct (fetched (actor (log ++ [rq1]) rq2)) as [items|e] eqn:Hf2; simpl.
      * intros H. rewrite (Htwo H), Hraise in Hf2. discriminate.
      * intros H. rewrite (Htwo H), Hraise in Hf2. congruence.
    + intros H. rewrite (Hone H), Hraise in Hf1. discriminate.
    + intros H. rewrite (Hone H), Hraise in Hf1. discriminate.
  - intros H. rewrite (Hone H), Hraise in Hf1. congruence.
Qed.

Lemma on_generate_raise (profile_url token_input : string) (pp tt : Z)
    (sd ed : date) (log : list request) (e : exn) :
  let run := fetch_posts_bulk parse repr actor (extract_username profile_url)
               (strip token_input) (combine_min sd) (combine_max ed) tt pp log in
  truthy (VStr profile_url) = true -> fst run = Raise e ->
  on_generate parse repr actor profile_url token_input pp tt sd ed log
  = ([StSpinner "Fetching posts from Apify..."; StError ("Error: " +:+ exn_str e)],
     snd run).
Proof.
  intros run Hurl Hrun. unfold on_generate. rewrite Hurl. simpl negb. cbv iota.
  fold run. destruct run as [res log']. simpl in Hrun. now subst res.
Qed.

(** C8. When a request of the run is answered with a non-success status,
    the run ends with the error message built from that status code and
    response body, and offers no download. *)
Theorem non_success_aborts (profile_url token_input : string) (pp tt : Z)
    (sd ed : date) (log pre post : list request) (rq : request) (r : response) :
  let run := on_generate parse repr actor profile_url token_input pp tt sd ed log in
  let msg := "Error: Apify error " +:+ str_of_Z (status_code r) +:+ ": " +:+ text r in
  snd run = (pre ++ rq :: post)%list -> (length log <= length pre)%nat ->
  actor pre rq = Ok r -> resp_ok r = false ->
  fst run = [StSpinner "Fetching posts from Apify..."; StError msg]
  /\ contains msg (str_of_Z (status_code r)) /\ contains msg (text r)
  /\ forallb (fun ev => negb (is_download ev)) (fst run) = true.
Proof.
  intros run msg Hlog Hlen Hact Hbad.
  assert (Hev : fst run = [StSpinner "Fetching posts from Apify..."; StError msg]).
  { subst run. destruct (truthy (VStr profile_url)) eqn:Hurl.
    - unfold on_generate in Hlog. rewrite Hurl in Hlog. simpl negb in Hlog.
      cbv iota in Hlog.
      assert (Hsnd : snd (fetch_posts_bulk parse repr actor
                            (extract_username profile_url) (strip token_input)
                            (combine_min sd) (combine_max ed) tt pp log)
                     = (pre ++ rq :: post)%list).
      { destruct (fetch_posts_bulk parse repr actor (extract_username profile_url)
                    (strip token_input) (combine_min sd) (combine_max ed) tt pp log)
          as [[[a p]|e] l]; [|exact Hlog].
        now destruct (posts_to_csv repr p). }
      pose proof (fetch_non_success _ _ _ _ _ _ _ _ _ _ _ Hsnd Hlen Hact Hbad) as Hf.
      now rewrite (on_generate_raise _ _ _ _ _ _ _ _ Hurl Hf).
    - unfold on_generate in Hlog. rewrite Hurl in Hlog. simpl in Hlog.
      apply (f_equal length) in Hlog. rewrite length_app in Hlog. simpl in Hlog. lia. }
  split; [exact Hev|]. split; [|split].
  - exists "Error: Apify error ", (": " +:+ text r). reflexivity.
  - exists ("Error: Apify error " +:+ str_of_Z (status_code r) +:+ ": "), EmptyString.
    subst msg. rewrite app_empty_r, !app_assoc_str. reflexivity.
  - rewrite Hev. reflexivity.
Qed.

End Fetch.

(** * Concrete runs *)

Example extract_username_janedoe :
  extract_username "https://www.linkedin.com/in/janedoe/" = "janedoe".
Proof. reflexivity. Qed.

Example extract_username_fallback : extract_username "  not-a-url  " = "not-a-url".
Proof. reflexivity. Qed.

Example split_on_example : split_on "." "posted_at.date" = ["posted_at"; "date"].
Proof. reflexivity. Qed.

Example isoformat_example : isoformat (mkDate 2025 1 1) = "2025-01-01".
Proof. reflexivity. Qed.

Example sample_run :
  sample_fetch [answer sample_batch] 100
  = (Ok (sample_batch, sample_in_range), [sample_request 100]).
Proof. vm_compute. reflexivity. Qed.

(** An actor that returns no item: one request, two empty results. *)
Example empty_batch_run :
  sample_fetch [answer []] 100 = (Ok ([], []), [sample_request 100]).
Proof. vm_compute. reflexivity. Qed.

(** A batch of 1000 items dated after the start, with a target of 1000: the
    second request is issued with ceiling 10000. *)
Example full_batch_run :
  snd (sample_fetch [answer (replicate 1000 post_may); answer [post_may]] 1000)
  = [sample_request 1000; sample_request 10000].
Proof. vm_compute. reflexivity. Qed.


Lemma fetch_in_range_spec_witness :
  sample_fetch [answer sample_batch] 100
  = (Ok (sample_batch, sample_in_range), [sample_request 100])
  /\ (forall p, p ∈ sample_in_range ->
        exists d, post_date sample_parse sample_repr p = Ok (Some d)
          /\ dt_le jan1 d = Ok true /\ dt_le d dec31 = Ok true)
  /\ post_dated "junk" ∉ sample_in_range.
Proof.
  assert (H : sample_fetch [answer sample_batch] 100
              = (Ok (sample_batch, sample_in_range), [sample_request 100]))
    by (vm_compute; reflexivity).
  split; [exact H|].
  destruct (fetch_in_range_spec _ _ _ _ _ _ _ _ _ _ _ _ _ H) as (Hin & Hout & _).
  split; [exact Hin|]. apply Hout. vm_compute. reflexivity.
Defined.

Lemma fetch_sorted_stable_witness :
  sample_fetch [answer sample_batch] 100
  = (Ok (sample_batch, sample_in_range), [sample_request 100])
  /\ StronglySorted (newer_first sample_parse sample_repr) sample_in_range
  /\ List.filter (has_time sample_parse sample_repr march1) sample_in_range
     = [post_a; post_b].
Proof.
  assert (H : sample_fetch [answer sample_batch] 100
              = (Ok (sample_batch, sample_in_range), [sample_request 100]))
    by (vm_compute; reflexivity).
  split; [exact H|].
  destruct (fetch_sorted_stable _ _ _ _ _ _ _ _ _ _ _ _ _ H) as (Hsorted & Hstable & _).
  split; [exact Hsorted|]. rewrite Hstable. vm_compute. reflexivity.
Defined.

(** C4, as stated, fails: a batch whose only record is in range comes back
    whole as the in-range subset. *)
Lemma fetch_subset_not_strict :
  exists all inr log',
    sample_fetch [answer [post_may]] 100 = (Ok (all, inr), log')
    /\ ~ strict_subset inr all.
Proof.
  exists [post_may], [post_may], [sample_request 100].
  split; [vm_compute; reflexivity|]. intros [_ H]. apply H. auto.
Qed.

Lemma fetch_in_range_subset_witness :
  sample_fetch [answer sample_batch] 100
  = (Ok (sample_batch, sample_in_range), [sample_request 100])
  /\ (forall p, p ∈ sample_in_range -> p ∈ sample_batch)
  /\ (length sample_in_range <= length sample_batch)%nat.
Proof.
  assert (H : sample_fetch [answer sample_batch] 100
              = (Ok (sample_batch, sample_in_range), [sample_request 100]))
    by (vm_compute; reflexivity).
  split; [exact H|].
  destruct (fetch_in_range_subset _ _ _ _ _ _ _ _ _ _ _ _ _ H) as (Hsub & _ & Hlen).
  split; [exact Hsub | exact Hlen].
Defined.

(** C5. A record whose [posted_at] is JSON null aborts the run with an
    [AttributeError], although the response was successful; the export
    reads the same record without raising. *)
Theorem fetch_null_posted_at_raises :
  sample_fetch [answer [post_null_date]] 100
  = (Raise (AttributeError "'NoneType' object has no attribute 'get'"),
     [sample_request 100])
  /\ exists bytes, posts_to_csv sample_repr [post_null_date] = Ok bytes.
Proof.
  split; [vm_compute; reflexivity|]. eexists. vm_compute. reflexivity.
Qed.

(** Timestamps that carry a timezone abort a run whose range is naive. *)
Example fetch_aware_dates_raise :
  fst (sample_fetch [answer [post_dated "2025-03-01Z"]] 100)
  = Raise (TypeError "can't compare offset-naive and offset-aware datetimes").
Proof. vm_compute. reflexivity. Qed.

Lemma parse_post_date_total_witness :
  truthy (VStr EmptyString) = false
  /\ parse_post_date sample_parse sample_repr (VStr EmptyString) = Ok None
  /\ exists r, parse_post_date sample_parse sample_repr (VStr "junk") = Ok r.
Proof.
  split; [reflexivity|]. split.
  - apply (proj2 (parse_post_date_total sample_parse sample_repr (VStr EmptyString))).
    reflexivity.
  - destruct (proj1 (parse_post_date_total sample_parse sample_repr (VStr "junk")))
      as (r & Hr & _). exists r. exact Hr.
Defined.

Lemma non_success_aborts_witness :
  resp_ok server_error = false
  /\ fst (on_generate sample_parse sample_repr (scripted_actor [Ok server_error])
            "https://www.linkedin.com/in/janedoe/" " tok " 100 100
            (mkDate 2025 1 1) (mkDate 2025 12 31) [])
     = [StSpinner "Fetching posts from Apify...";
        StError "Error: Apify error 500: boom"].
Proof.
  split; [reflexivity|].
  refine (proj1 (non_success_aborts sample_parse sample_repr
                   (scripted_actor [Ok server_error])
                   "https://www.linkedin.com/in/janedoe/" " tok " 100 100
                   (mkDate 2025 1 1) (mkDate 2025 12 31)
                   [] [] [] (sample_request 100) server_error _ _ _ _)).
  - vm_compute. reflexivity.
  - simpl. lia.
  - reflexivity.
  - reflexivity.
Defined.



(** * Further properties *)

Section Further.

Variable parse : string -> result datetime.
Variable repr : value -> string.
Variable actor : list request -> request -> result response.

(** ** Reading the timestamp of a record *)

Lemma parse_post_date_returns (v : value) :
  exists o, parse_post_date parse repr v = Ok o.
Proof.
  unfold parse_post_date. destruct (truthy v); simpl; [|eauto].
  destruct (parse (py_str repr v)); simpl; eauto.
Qed.

Lemma post_date_dict (d : gmap string value) :
  post_date parse repr (VDict d)
  = match d !! "posted_at" with
    | None => Ok None
    | Some (VDict a) => parse_post_date parse repr (default VNone (a !! "date"))
    | Some v => Raise (no_get v)
    end.
Proof.
  unfold post_date. simpl. destruct (d !! "posted_at") as [v|]; simpl.
  - destruct v; reflexivity.
  - rewrite lookup_empty. reflexivity.
Qed.

Lemma post_date_Ok_shape (p : value) (o : option datetime) :
  post_date parse repr p = Ok o -> well_shaped p = true.
Proof.
  destruct p as [| | | | | |d]; try discriminate.
  rewrite post_date_dict. simpl.
  destruct (d !! "posted_at") as [v|]; [|reflexivity].
  destruct v; try discriminate. reflexivity.
Qed.


(** X1. Reading the timestamp of a record returns exactly when the record
    is a dictionary whose [posted_at] is absent or a dictionary; otherwise
    it raises the [AttributeError] of a [.get] on the value that is not a
    dictionary: the record itself, or its [posted_at]. *)
Theorem post_date_raises_iff (p : value) :
  (well_shaped p = true <-> exists o, post_date parse repr p = Ok o)
  /\ (well_shaped p = false ->
      exists v, post_date parse repr p = Raise (no_get v)
        /\ is_dict v = false
        /\ (v = p \/ exists d, p = VDict d /\ d !! "posted_at" = Some v)).
Proof.
  split; [split|].
  - destruct p as [| | | | | |d]; try discriminate.
    rewrite post_date_dict. simpl.
    destruct (d !! "posted_at") as [v|]; [|eauto].
    destruct v; try discriminate. intros _. apply parse_post_date_returns.
  - intros (o & Ho). eapply post_date_Ok_shape; eassumption.
  - destruct p as [| | | | | |d]; intros Hs;
      try (eexists; split; [reflexivity | split; [reflexivity | now left]]).
    rewrite post_date_dict. simpl in Hs.
    destruct (d !! "posted_at") as [v|] eqn:Hv; [|discriminate].
    exists v. destruct v; try discriminate;
      (split; [reflexivity | split; [reflexivity | right; eauto]]).
Qed.

(** X2. A record without [posted_at], or whose [posted_at] has no [date]
    or a [date] that is false (null, empty), has no timestamp: the read
    gives [None] without raising, whatever the parser. *)
Theorem post_date_missing (d : gmap string value) :
  (d !! "posted_at" = None -> post_date parse repr (VDict d) = Ok None)
  /\ (forall a : gmap string value,
        d !! "posted_at" = Some (VDict a) ->
        (a !! "date" = None \/ exists v, a !! "date" = Some v /\ truthy v = false) ->
        post_date parse repr (VDict d) = Ok None).
Proof.
  split.
  - intros H. now rewrite post_date_dict, H.
  - intros a Ha Hdate. rewrite post_date_dict, Ha.
    destruct Hdate as [-> | (v & -> & Hv)]; simpl.
    + reflexivity.
    + unfold parse_post_date. now rewrite Hv.
Qed.

(** ** Runs that return *)

Lemma readable_dates (start end_ : datetime) (batch : list value) :
  Forall (readable parse repr start end_) batch ->
  exists ods, traverse (post_date parse repr) batch = Ok ods
    /\ Forall (fun d => aware d = aware start) (omap id ods).
Proof.
  induction 1 as [|p ps (o & Ho & Hkind) _ (ods & IH & Hall)]; simpl.
  - exists []. split; [reflexivity | constructor].
  - exists (o :: ods). rewrite Ho. simpl. rewrite IH. simpl.
    split; [reflexivity|]. destruct o as [d|]; simpl; [|exact Hall].
    constructor; [apply (Hkind d eq_refl) | exact Hall].
Qed.

Lemma wants_retry_total (start end_ : datetime) (tt : Z) (batch : list value) :
  Forall (readable parse repr start end_) batch ->
  exists b, wants_retry parse repr start tt batch = Ok b.
Proof.
  intros Hr. destruct (readable_dates _ _ _ Hr) as (ods & Hods & Hall).
  unfold wants_retry. rewrite Hods. simpl.
  destruct (omap id ods) as [|d0 ds] eqn:Hvalid; simpl; [eauto|].
  inversion Hall as [|? ? Hd0 Hds]; subst.
  destruct (py_min_from_total ds d0) as (m & Hm).
  { eapply Forall_impl; [exact Hds|]. simpl. congruence. }
  rewrite Hm. simpl.
  destruct (py_min_from_spec _ _ _ Hm) as (Hin & _ & _).
  assert (Hkind : aware m = aware start).
  { destruct Hin as [->|Hin]; [exact Hd0|].
    rewrite Forall_forall in Hds. now apply Hds, list_elem_of_In. }
  unfold dt_gt. rewrite dt_compare_total by exact Hkind. simpl. eauto.
Qed.

Lemma fetch_log_cases (u t : string) (start end_ : datetime) (tt pp : Z)
    (log : list request) :
  let rq1 := fetch_request u t pp tt in
  let rq2 := fetch_request u t pp (Z.max 10000 (tt * 2)) in
  snd (fetch_posts_bulk parse repr actor u t start end_ tt pp log) = (log ++ [rq1])%list
  \/ snd (fetch_posts_bulk parse repr actor u t start end_ tt pp log)
     = (log ++ [rq1; rq2])%list.
Proof.
  intros rq1 rq2. rewrite fetch_posts_bulk_eq. fold rq1 rq2.
  destruct (fetched (actor log rq1)) as [[|x xs]|e]; [now left| |now left].
  destruct (wants_retry parse repr start tt (x :: xs)) as [[]|e]; [|now left|now left].
  right. now destruct (fetched (actor (log ++ [rq1]) rq2)).
Qed.

(** X3. A run returns when the first fetch returns a batch whose
    timestamps can all be read and compared with the bounds, and the second
    fetch does likewise; the batch returned is that of the first fetch, or
    that of the second when the first is not empty and calls for it. *)
Theorem fetch_returns (u t : string) (start end_ : datetime) (tt pp : Z)
    (log : list request) (b1 b2 : list value) :
  let rq1 := fetch_request u t pp tt in
  let rq2 := fetch_request u t pp (Z.max 10000 (tt * 2)) in
  fetched (actor log rq1) = Ok b1 ->
  Forall (readable parse repr start end_) b1 ->
  fetched (actor (log ++ [rq1])%list rq2) = Ok b2 ->
  Forall (readable parse repr start end_) b2 ->
  exists all inr log',
    fetch_posts_bulk parse repr actor u t start end_ tt pp log = (Ok (all, inr), log')
    /\ (all = b1 \/ (all = b2 /\ b1 <> [] /\ retry_trigger parse repr start tt b1)).
Proof.
  intros rq1 rq2 Hf1 Hr1 Hf2 Hr2. rewrite fetch_posts_bulk_eq. fold rq1 rq2.
  rewrite Hf1. destruct (finish_total parse repr _ _ _ Hr1) as (inr1 & Hfin1).
  destruct (finish_total parse repr _ _ _ Hr2) as (inr2 & Hfin2).
  destruct b1 as [|x xs].
  - rewrite Hfin1. eauto 6.
  - destruct (wants_retry_total _ _ tt _ Hr1) as ([] & Hw); rewrite Hw.
    + rewrite Hf2, Hfin2. exists b2, inr2, (log ++ [rq1; rq2])%list.
      split; [reflexivity|]. right. split; [reflexivity|]. split; [discriminate|].
      now apply wants_retry_trigger.
    + rewrite Hfin1. eauto 6.
Qed.

(** ** Answers of the actor *)

(** X4. A successful answer whose decoded body is not a list counts as an
    empty batch: the run returns two empty lists after its only request. *)
Theorem fetch_body_not_list (u t : string) (start end_ : datetime) (tt pp : Z)
    (log : list request) (r : response) (data : value) :
  actor log (fetch_request u t pp tt) = Ok r -> resp_ok r = true ->
  json r = Ok data -> (forall l, data <> VList l) ->
  fetch_posts_bulk parse repr actor u t start end_ tt pp log
  = (Ok ([], []), (log ++ [fetch_request u t pp tt])%list).
Proof.
  intros Ha Hok Hj Hnl. rewrite fetch_posts_bulk_eq.
  unfold fetched at 1. rewrite Ha, Hok, Hj.
  destruct data; try reflexivity. now destruct (Hnl l).
Qed.

(** X5. An exception of the first request, raised by the connection or by
    the decoding of a successful answer, leaves the run unchanged as its own
    exception, after that single request. *)
Theorem fetch_first_failure (u t : string) (start end_ : datetime) (tt pp : Z)
    (log : list request) (e : exn) :
  (actor log (fetch_request u t pp tt) = Raise e
   \/ exists r, actor log (fetch_request u t pp tt) = Ok r
        /\ resp_ok r = true /\ json r = Raise e) ->
  fetch_posts_bulk parse repr actor u t start end_ tt pp log
  = (Raise e, (log ++ [fetch_request u t pp tt])%list).
Proof.
  intros H. rewrite fetch_posts_bulk_eq. unfold fetched at 1.
  destruct H as [-> | (r & -> & -> & ->)]; reflexivity.
Qed.

(** X6. When the first batch calls for the second request, the outcome of
    the run is that of the second fetch alone: its exception, or its batch
    filtered and sorted.  Nothing of the first batch is kept. *)
Theorem fetch_retry_replaces (u t : string) (start end_ : datetime) (tt pp : Z)
    (log : list request) (b1 : list value) :
  let rq1 := fetch_request u t pp tt in
  let rq2 := fetch_request u t pp (Z.max 10000 (tt * 2)) in
  fetched (actor log rq1) = Ok b1 -> b1 <> [] ->
  retry_trigger parse repr start tt b1 ->
  fetch_posts_bulk parse repr actor u t start end_ tt pp log
  = (match fetched (actor (log ++ [rq1])%list rq2) with
     | Ok b2 => finish parse repr start end_ b2
     | Raise e => Raise e
     end, (log ++ [rq1; rq2])%list).
Proof.
  intros rq1 rq2 Hf1 Hne Htrig. rewrite fetch_posts_bulk_eq. fold rq1 rq2.
  rewrite Hf1. destruct b1 as [|x xs]; [now destruct Hne|].
  apply wants_retry_trigger in Htrig. rewrite Htrig.
  now destruct (fetched (actor (log ++ [rq1]) rq2)).
Qed.

(** X7. The requests of a run differ only in their ceiling, and a second
    request always asks for more than the first, and for at least 10000. *)
Theorem fetch_second_asks_more (u t : string) (start end_ : datetime) (tt pp : Z)
    (log : list request) (rqa rqb : request) :
  snd (fetch_posts_bulk parse repr actor u t start end_ tt pp log)
  = (log ++ [rqa; rqb])%list ->
  req_total_posts rqa = tt
  /\ req_total_posts rqa < req_total_posts rqb
  /\ 10000 <= req_total_posts rqb
  /\ req_url rqb = req_url rqa /\ req_username rqb = req_username rqa
  /\ req_limit rqb = req_limit rqa /\ req_timeout rqb = req_timeout rqa.
Proof.
  intros H.
  destruct (fetch_log_cases u t start end_ tt pp log) as [Hl|Hl];
    rewrite Hl in H; apply app_inv_head in H; [discriminate|].
  injection H as <- <-. simpl. repeat split; lia.
Qed.

(** ** The range *)

Lemma filter_bool_none (f : value -> bool) (l : list value) :
  (forall x, f x = false) -> List.filter f l = [].
Proof.
  intros H. induction l as [|x l IH]; simpl; [reflexivity|]. now rewrite H.
Qed.

Lemma fetch_in_range_elem (u t : string) (start end_ : datetime) (tt pp : Z)
    (log log' : list request) (all inr : list value) (p : value) :
  fetch_posts_bulk parse repr actor u t start end_ tt pp log = (Ok (all, inr), log') ->
  p ∈ inr <-> p ∈ all /\ within parse repr start end_ p = true.
Proof.
  intros H. apply fetch_posts_bulk_Ok in H as [Hfin _].
  apply finish_spec in Hfin as (_ & Hperm & _).
  rewrite Hperm. apply elem_of_filter_bool.
Qed.

(** X8. With a range whose end is earlier than its start, a run that
    returns has an empty in-range subset. *)
Theorem fetch_inverted_range (u t : string) (start end_ : datetime) (tt pp : Z)
    (log log' : list request) (all inr : list value) :
  fetch_posts_bulk parse repr actor u t start end_ tt pp log = (Ok (all, inr), log') ->
  dt_lt end_ start = Ok true ->
  inr = [].
Proof.
  intros H Hinv. apply fetch_posts_bulk_Ok in H as [Hfin _].
  apply finish_spec in Hfin as (_ & Hperm & _).
  rewrite filter_bool_none in Hperm; [now apply Permutation_nil_r in Hperm|].
  intros p. destruct (within parse repr start end_ p) eqn:Hw; [|reflexivity].
  apply within_true in Hw as (d & _ & H1 & H2).
  apply dt_le_true in H1 as [_ H1]. apply dt_le_true in H2 as [_ H2].
  apply dt_lt_true in Hinv as [_ Hinv]. lia.
Qed.

(** X9. The bounds are inclusive: in a run that returns, a record of the
    batch whose timestamp equals the start or the end of a range that is
    not inverted is in the in-range subset. *)
Theorem fetch_bounds_inclusive (u t : string) (start end_ : datetime) (tt pp : Z)
    (log log' : list request) (all inr : list value) (p : value) (d : datetime) :
  fetch_posts_bulk parse repr actor u t start end_ tt pp log = (Ok (all, inr), log') ->
  p ∈ all -> post_date parse repr p = Ok (Some d) ->
  dt_le start end_ = Ok true ->
  dt_eqb d start = true \/ dt_eqb d end_ = true ->
  p ∈ inr.
Proof.
  intros H Hp Hd Hse Heq. apply (fetch_in_range_elem _ _ _ _ _ _ _ _ _ _ _ H).
  split; [exact Hp|]. apply within_true. exists d. split; [exact Hd|].
  apply dt_le_true in Hse as [Ek Hse]. rewrite !dt_le_true.
  destruct Heq as [Heq|Heq]; apply dt_eqb_true in Heq as [E1 E2];
    (split; split; [congruence | lia | congruence | lia]).
Qed.

(** ** Batches that are already sorted *)

Lemma sort_pairs_sorted (l : list (datetime * value)) :
  StronglySorted key_not_before l -> sort_pairs l = Ok l.
Proof.
  induction 1 as [|x xs _ IH Hall]; simpl; [reflexivity|].
  rewrite IH. simpl. destruct xs as [|y ys]; simpl; [reflexivity|].
  inversion Hall as [|? ? Hy _]; subst.
  unfold key_not_before, not_before in Hy. now rewrite Hy.
Qed.

Lemma keyed_sorted_inv (s : list (datetime * value)) :
  Forall (keyed parse repr) s ->
  StronglySorted (newer_first parse repr) (map snd s) ->
  StronglySorted key_not_before s.
Proof.
  induction 1 as [|kp s Hkp Hks IH]; simpl; intros Hs; [constructor|].
  inversion Hs as [|? ? Hs' Hall]; subst. constructor; [now apply IH|].
  rewrite Forall_map in Hall. rewrite Forall_forall in *.
  intros kq Hq. destruct (Hall _ Hq) as (dp & dq & Hdp & Hdq & Hle).
  unfold keyed in Hkp. specialize (Hks _ Hq). unfold keyed in Hks.
  simpl in Hdp, Hdq. rewrite Hkp in Hdp. rewrite Hks in Hdq.
  injection Hdp as <-. injection Hdq as <-.
  unfold key_not_before, not_before. apply dt_le_true in Hle as [E L].
  apply dt_lt_false. split; [congruence | lia].
Qed.

(** X10. When the in-range records of the batch already come newest
    first, the run returns them in that very order. *)
Theorem fetch_keeps_newest_first (u t : string) (start end_ : datetime) (tt pp : Z)
    (log log' : list request) (all inr : list value) :
  fetch_posts_bulk parse repr actor u t start end_ tt pp log = (Ok (all, inr), log') ->
  StronglySorted (newer_first parse repr)
    (List.filter (within parse repr start end_) all) ->
  inr = List.filter (within parse repr start end_) all.
Proof.
  intros H Hsorted. apply fetch_posts_bulk_Ok in H as [Hfin _].
  unfold finish in Hfin. apply rbind_Ok in Hfin as (l & Hl & Hfin).
  apply rbind_Ok in Hfin as (r & Hr & [= <-]).
  apply filter_in_range_spec in Hl. subst l.
  set (l := List.filter (within parse repr start end_) all) in *.
  unfold sort_reverse_by in Hr. apply rbind_Ok in Hr as (keys & Hkeys & Hr).
  apply rbind_Ok in Hr as (s & Hs & [= <-]). apply traverse_Ok in Hkeys.
  assert (Hl : Forall (fun p => exists d, post_date parse repr p = Ok (Some d)) l).
  { apply Forall_forall. intros p Hp. apply elem_of_filter_bool in Hp as [_ Hp].
    apply within_true in Hp as (d & Hd & _). eauto. }
  destruct (zip_keys parse repr _ _ Hl Hkeys) as [Hsnd Hkeyed].
  rewrite sort_pairs_sorted in Hs.
  - injection Hs as <-. exact Hsnd.
  - apply keyed_sorted_inv; [exact Hkeyed | now rewrite Hsnd].
Qed.

(** ** The export *)

Lemma traverse_Raise {A B} (f : A -> result B) (l : list A) (e : exn) :
  traverse f l = Raise e -> exists x, x ∈ l /\ f x = Raise e.
Proof.
  induction l as [|x l IH]; simpl; [discriminate|].
  destruct (f x) as [y|e'] eqn:Hx; simpl.
  - destruct (traverse f l) as [ys|e'']; simpl; [discriminate|].
    intros [= <-]. destruct (IH eq_refl) as (x' & Hin & Hx').
    exists x'. split; [now right | exact Hx'].
  - intros [= <-]. exists x. split; [left | exact Hx].
Qed.






(** ** Timestamps with a timezone *)

Lemma dt_compare_Raise (op : Z -> Z -> bool) (a b : datetime) (e : exn) :
  dt_compare op a b = Raise e -> e = naive_aware_error.
Proof.
  rewrite dt_compare_spec. destruct (Bool.eqb (aware a) (aware b)); [discriminate|].
  now intros [= <-].
Qed.

Lemma dt_compare_mixed (op : Z -> Z -> bool) (a b : datetime) :
  aware a <> aware b -> dt_compare op a b = Raise naive_aware_error.
Proof.
  intros H. rewrite dt_compare_spec.
  destruct (Bool.eqb_spec (aware a) (aware b)); [contradiction | reflexivity].
Qed.

Lemma py_min_from_Raise (l : list datetime) (best : datetime) (e : exn) :
  py_min_from best l = Raise e -> e = naive_aware_error.
Proof.
  revert best; induction l as [|d ds IH]; intros best; simpl; [discriminate|].
  destruct (dt_lt d best) as [b|e'] eqn:Hb; simpl.
  - apply IH.
  - intros [= <-]. eapply dt_compare_Raise. exact Hb.
Qed.

Lemma py_min_from_kind (l : list datetime) (best m : datetime) :
  py_min_from best l = Ok m ->
  aware m = aware best /\ Forall (fun d => aware d = aware best) l.
Proof.
  intros H. destruct (py_min_from_spec _ _ _ H) as (_ & Hle & Hall).
  apply dt_le_true in Hle as [E _]. split; [exact E|].
  eapply Forall_impl; [exact Hall|]. simpl. intros d Hd.
  apply dt_le_true in Hd as [Ed _]. congruence.
Qed.

Lemma Forall2_elem_l {A B} (R : A -> B -> Prop) (l : list A) (ys : list B) (x : A) :
  Forall2 R l ys -> x ∈ l -> exists y, y ∈ ys /\ R x y.
Proof.
  induction 1 as [|a b l ys Hab _ IH]; intros Hx; [inversion Hx|].
  apply elem_of_cons in Hx as [->|Hx].
  - exists b. split; [left | exact Hab].
  - destruct (IH Hx) as (y & Hy & HR). exists y. split; [now right | exact HR].
Qed.

(** X12. With a naive start, a batch whose timestamps can all be read and
    one of which parses as timezone-aware aborts the run with the
    [TypeError] of comparing naive and aware datetimes, after the first
    request. *)
Theorem fetch_aware_aborts (u t : string) (start end_ : datetime) (tt pp : Z)
    (log : list request) (batch : list value) (p : value) (d : datetime) :
  aware start = false ->
  fetched (actor log (fetch_request u t pp tt)) = Ok batch ->
  (forall q, q ∈ batch -> exists o, post_date parse repr q = Ok o) ->
  p ∈ batch -> post_date parse repr p = Ok (Some d) -> aware d = true ->
  fetch_posts_bulk parse repr actor u t start end_ tt pp log
  = (Raise naive_aware_error, (log ++ [fetch_request u t pp tt])%list).
Proof.
  intros Hstart Hf Hread Hp Hd Haw. rewrite fetch_posts_bulk_eq, Hf.
  destruct batch as [|x xs]; [inversion Hp|].
  assert (Hw : wants_retry parse repr start tt (x :: xs) = Raise naive_aware_error);
    [|now rewrite Hw].
  unfold wants_retry.
  destruct (traverse (post_date parse repr) (x :: xs)) as [ods|e] eqn:Ht.
  2:{ apply traverse_Raise in Ht as (q & Hq & Hraise).
      destruct (Hread q Hq) as (o & Ho). congruence. }
  simpl. apply traverse_Ok in Ht.
  destruct (Forall2_elem_l _ _ _ _ Ht Hp) as (o & Ho & Hpo).
  rewrite Hd in Hpo. injection Hpo as <-.
  assert (Hv : d ∈ omap id ods) by (apply list_elem_of_omap; eauto).
  destruct (omap id ods) as [|d0 ds] eqn:Hvalid; [inversion Hv|]. simpl.
  destruct (py_min_from d0 ds) as [m|e] eqn:Hm; simpl.
  - destruct (py_min_from_kind _ _ _ Hm) as [Em Hall].
    assert (Ed : aware d = aware d0).
    { apply elem_of_cons in Hv as [->|Hv]; [reflexivity|].
      rewrite Forall_forall in Hall. now apply Hall. }
    unfold dt_gt. rewrite dt_compare_mixed by congruence. reflexivity.
  - now rewrite (py_min_from_Raise _ _ _ Hm).
Qed.

(** ** The handler *)

Lemma truthy_str (s : string) : truthy (VStr s) = negb (String.eqb s EmptyString).
Proof. reflexivity. Qed.

Lemma on_generate_empty (token_input : string) (pp tt : Z) (sd ed : date)
    (log : list request) :
  on_generate parse repr actor EmptyString token_input pp tt sd ed log
  = ([StError "Please enter a LinkedIn profile URL."; StStop], log).
Proof. reflexivity. Qed.

Lemma on_generate_log (profile_url token_input : string) (pp tt : Z) (sd ed : date)
    (log : list request) :
  profile_url <> EmptyString ->
  snd (on_generate parse repr actor profile_url token_input pp tt sd ed log)
  = snd (fetch_posts_bulk parse repr actor (extract_username profile_url)
           (strip token_input) (combine_min sd) (combine_max ed) tt pp log).
Proof.
  intros Hne. unfold on_generate. rewrite truthy_str.
  apply String.eqb_neq in Hne. rewrite Hne. simpl negb. cbv iota.
  destruct (fetch_posts_bulk parse repr actor (extract_username profile_url)
              (strip token_input) (combine_min sd) (combine_max ed) tt pp log)
    as [[[all posts]|e] log']; [|reflexivity].
  now destruct (posts_to_csv repr posts).
Qed.


(** X14. The handler issues no request for an empty URL; otherwise its
    first request carries the identifier extracted from the URL, the token
    stripped of surrounding whitespace, the page size, the target total and
    a timeout of 300, and at most one more request follows. *)
Theorem on_generate_requests (profile_url token_input : string) (pp tt : Z)
    (sd ed : date) (log : list request) :
  let log' := snd (on_generate parse repr actor profile_url token_input pp tt sd ed log) in
  (profile_url = EmptyString -> log' = log)
  /\ (profile_url <> EmptyString ->
      exists more,
        log' = (log ++ mkRequest (APIFY_ACTOR_ENDPOINT +:+ "?token=" +:+ strip token_input)
                         (extract_username profile_url) pp tt 300 :: more)%list
        /\ (length more <= 1)%nat).
Proof.
  intros log'. subst log'. split.
  - intros ->. reflexivity.
  - intros Hne. rewrite on_generate_log by exact Hne.
    destruct (fetch_log_cases (extract_username profile_url) (strip token_input)
                (combine_min sd) (combine_max ed) tt pp log) as [-> | ->].
    + exists []. split; [reflexivity | simpl; lia].
    + eexists [_]. split; [reflexivity | simpl; lia].
Qed.

End Further.

(** ** Identifiers *)

Lemma re_search_cons (c : ascii) (r : string) :
  re_search (String c r)
  = match match_here (String c r) with
    | Some g => Some g
    | None => re_search r
    end.
Proof. reflexivity. Qed.

Lemma re_search_here (s g : string) : match_here s = Some g -> re_search s = Some g.
Proof. destruct s as [|c r]; [discriminate|]. rewrite re_search_cons. now intros ->. Qed.

Lemma match_here_not_l (c : ascii) (r : string) :
  Ascii.eqb c "l" = false -> match_here (String c r) = None.
Proof.
  intros Hc. unfold match_here, profile_prefix.
  change (strip_prefix "linkedin.com/in/" (String c r))
    with (if Ascii.eqb "l" c then strip_prefix "inkedin.com/in/" r else None).
  rewrite Ascii.eqb_sym, Hc. reflexivity.
Qed.

Lemma re_search_skip (pre s : string) :
  lacks "l" pre = true -> re_search (pre +:+ s) = re_search s.
Proof.
  induction pre as [|c pre IH]; intros H; [reflexivity|].
  unfold lacks in *. simpl in H. apply andb_true_iff in H as [Hc H].
  apply negb_true_iff in Hc.
  rewrite app_cons, re_search_cons, match_here_not_l by exact Hc. now apply IH.
Qed.

Lemma space_lacks_l (s : string) : all_chars is_space s = true -> lacks "l" s = true.
Proof.
  unfold lacks. induction s as [|c s IH]; simpl; [reflexivity|].
  intros H. apply andb_true_iff in H as [Hc H]. rewrite IH by exact H.
  destruct (Ascii.eqb_spec c "l") as [->|]; [discriminate | reflexivity].
Qed.

Lemma lstrip_spaces (s : string) : all_chars is_space s = true -> lstrip s = EmptyString.
Proof.
  induction s as [|c s IH]; simpl; [reflexivity|].
  intros H. apply andb_true_iff in H as [-> H]. now apply IH.
Qed.

(** X15. A URL made of characters other than [l], then [linkedin.com/in/],
    then a segment, then nothing or a delimiter and anything, gives the
    segment as it stands: what follows the delimiter is dropped, and
    whitespace inside or around the segment is kept. *)
Theorem extract_username_profile_url (pre seg rest : string) :
  lacks "l" pre = true ->
  seg <> EmptyString ->
  all_chars (fun c => negb (is_delim c)) seg = true ->
  segment_ends rest = true ->
  extract_username (pre +:+ profile_prefix +:+ seg +:+ rest) = seg.
Proof.
  intros Hpre Hne Hseg Hrest. unfold extract_username.
  rewrite re_search_skip by exact Hpre.
  rewrite (re_search_here _ seg); [reflexivity|].
  apply match_here_Some. exists rest. repeat split; assumption.
Qed.

(** X16. An input made of whitespace only gives the empty identifier, and
    when it is not empty the handler still sends its request, with an empty
    username. *)
Theorem blank_url_empty_username (parse : string -> result datetime)
    (repr : value -> string) (actor : list request -> request -> result response)
    (profile_url token_input : string) (pp tt : Z) (sd ed : date) (log : list request) :
  all_chars is_space profile_url = true ->
  extract_username profile_url = EmptyString
  /\ (profile_url <> EmptyString ->
      exists rq more,
        snd (on_generate parse repr actor profile_url token_input pp tt sd ed log)
        = (log ++ rq :: more)%list
        /\ req_username rq = EmptyString).
Proof.
  intros Hsp.
  assert (Hu : extract_username profile_url = EmptyString).
  { unfold extract_username.
    rewrite <- (app_empty_r profile_url) at 1.
    rewrite re_search_skip by now apply space_lacks_l.
    simpl. unfold strip. now rewrite lstrip_spaces. }
  split; [exact Hu|]. intros Hne.
  rewrite on_generate_log by exact Hne. rewrite Hu.
  destruct (fetch_log_cases parse repr actor EmptyString (strip token_input)
              (combine_min sd) (combine_max ed) tt pp log) as [-> | ->].
  - eexists _, []. split; reflexivity.
  - eexists _, [_]. split; reflexivity.
Qed.

(** ** Dotted paths *)

Lemma split_on_nonempty (sep : ascii) (s : string) :
  exists w ws, split_on sep s = w :: ws.
Proof.
  induction s as [|c s (w & ws & IH)]; simpl; [eauto|].
  destruct (Ascii.eqb c sep); [eauto|]. rewrite IH. eauto.
Qed.

Lemma split_on_app (sep : ascii) (a b : string) :
  split_on sep (a +:+ String sep b) = (split_on sep a ++ split_on sep b)%list.
Proof.
  induction a as [|c a IH].
  - rewrite app_empty_l. simpl. now rewrite Ascii.eqb_refl.
  - rewrite app_cons. simpl. destruct (Ascii.eqb c sep).
    + now rewrite IH.
    + rewrite IH. destruct (split_on_nonempty sep a) as (w & ws & ->). reflexivity.
Qed.

Lemma split_on_lacks (sep : ascii) (s : string) :
  lacks sep s = true -> split_on sep s = [s].
Proof.
  unfold lacks. induction s as [|c s IH]; simpl; [reflexivity|].
  intros H. apply andb_true_iff in H as [Hc H]. apply negb_true_iff in Hc.
  now rewrite Hc, IH.
Qed.

Lemma get_path_parts_app (obj : value) (pa pb : list string) :
  pb <> [] ->
  get_path_parts obj (pa ++ pb) = get_path_parts (get_path_parts obj pa) pb.
Proof.
  intros Hpb. revert obj; induction pa as [|k pa IH]; intros obj; simpl; [reflexivity|].
  assert (Hempty : get_path_parts (VStr EmptyString) pb = VStr EmptyString)
    by (destruct pb; [now destruct Hpb | reflexivity]).
  destruct obj as [| | | | | |d]; try (now rewrite Hempty).
  destruct (d !! k); [apply IH | now rewrite Hempty].
Qed.

(** X17. Looking up a path [a.b] is looking up [b] in the result of
    looking up [a]: a lookup that fails part way gives the empty string,
    in which every further lookup gives the empty string again. *)
Theorem get_path_compose (obj : value) (a b : string) :
  get_path obj (a +:+ "." +:+ b) = get_path (get_path obj a) b.
Proof.
  unfold get_path. change ("." +:+ b) with (String "." b).
  rewrite split_on_app. apply get_path_parts_app.
  destruct (split_on_nonempty "." b) as (w & ws & ->). discriminate.
Qed.

(** X18. For a key without a dot, [get_path] gives on a dictionary what
    [.get] with the empty string as default gives; on a record that is not
    a dictionary [.get] raises where [get_path] gives the empty string. *)
Theorem get_path_agrees_with_get (p : value) (key : string) :
  lacks "." key = true ->
  (forall d, p = VDict d -> py_get p key (VStr EmptyString) = Ok (get_path p key))
  /\ (is_dict p = false ->
      py_get p key (VStr EmptyString) = Raise (no_get p)
      /\ get_path p key = VStr EmptyString).
Proof.
  intros Hk. unfold get_path. rewrite (split_on_lacks _ _ Hk). split.
  - intros d ->. simpl. now destruct (d !! key).
  - intros Hd. destruct p; try discriminate; split; reflexivity.
Qed.

(** ** The days of the range *)

(** X19. The range the handler builds from two dates holds a naive
    timestamp exactly when its day lies from the first date to the second,
    whatever its time of day; comparing a timezone-aware timestamp with it
    raises. *)
Theorem range_covers_days (sd ed : date) (d : datetime) :
  (utcoffset d = None ->
   (dt_le (combine_min sd) d = Ok true /\ dt_le d (combine_max ed) = Ok true
    <-> toordinal sd <= ordinal_of d <= toordinal ed))
  /\ (utcoffset d <> None ->
      dt_le (combine_min sd) d = Raise naive_aware_error
      /\ dt_le d (combine_max ed) = Raise naive_aware_error).
Proof.
  split.
  - intros Hn. rewrite !dt_le_true. unfold aware, instant, ordinal_of. rewrite Hn.
    simpl. generalize (toordinal sd) (toordinal ed) (wall d). intros a b w.
    unfold us_per_day. split.
    + intros [[_ H1] [_ H2]]. split.
      * assert (a - 1 <= w / 86400000000); [|lia].
        apply Z.div_le_lower_bound; lia.
      * assert (w / 86400000000 < b); [|lia].
        apply Z.div_lt_upper_bound; lia.
    + intros [H1 H2].
      pose proof (Z.mul_div_le w 86400000000 ltac:(lia)) as Hlo.
      pose proof (Z.mul_succ_div_gt w 86400000000 ltac:(lia)) as Hhi.
      repeat split; nia.
  - intros Ha. unfold dt_le.
    split; apply dt_compare_mixed; unfold aware; simpl;
      destruct (utcoffset d); congruence.
Qed.

(** ** The credential *)

(** X20. The credential lookup never raises: a secrets store that raises
    counts as having no token.  It returns the token of the store when that
    is not empty, and the environment variable in every other case. *)
Theorem get_apify_token_spec (secrets_get : result value) (getenv : value) :
  exists token, get_apify_token secrets_get getenv = Ok token
    /\ (forall v, secrets_get = Ok v -> truthy v = true -> token = v)
    /\ ((forall v, secrets_get = Ok v -> truthy v = false) -> token = getenv).
Proof.
  unfold get_apify_token. destruct secrets_get as [v|e]; simpl.
  - eexists. split; [reflexivity|]. split.
    + intros v' [= <-] Hv. now rewrite Hv.
    + intros H. now rewrite (H v eq_refl).
  - eexists. split; [reflexivity|]. split; [discriminate | reflexivity].
Qed.

(** ** Concrete instances *)

Ltac readable_item :=
  eexists; split;
  [ vm_compute; reflexivity
  | intros ? H; first [ discriminate H | injection H as <-; split; reflexivity ] ].

Lemma sample_batch_readable :
  Forall (readable sample_parse sample_repr jan1 dec31) sample_batch.
Proof. repeat (constructor; [readable_item|]). constructor. Qed.

Lemma post_date_raises_iff_witness :
  well_shaped post_null_date = false
  /\ exists v, post_date sample_parse sample_repr post_null_date = Raise (no_get v)
       /\ is_dict v = false.
Proof.
  split; [reflexivity|].
  destruct (proj2 (post_date_raises_iff sample_parse sample_repr post_null_date) eq_refl)
    as (v & Hv & Hd & _).
  exists v. split; assumption.
Defined.

Lemma post_date_missing_witness :
  post_date sample_parse sample_repr post_undated = Ok None
  /\ post_date sample_parse sample_repr post_empty_date = Ok None.
Proof.
  split.
  - apply (proj1 (post_date_missing sample_parse sample_repr
                    {[ "url" := VStr "https://example.org/u" ]})).
    vm_compute. reflexivity.
  - apply (proj2 (post_date_missing sample_parse sample_repr
                    {[ "posted_at" := VDict ∅ ]}) ∅).
    + vm_compute. reflexivity.
    + left. vm_compute. reflexivity.
Defined.

Lemma fetch_returns_witness :
  fetched (scripted_actor [answer sample_batch; answer [post_may]] []
             (sample_request 100)) = Ok sample_batch
  /\ exists all inr log',
       sample_fetch [answer sample_batch; answer [post_may]] 100
       = (Ok (all, inr), log').
Proof.
  assert (H1 : fetched (scripted_actor [answer sample_batch; answer [post_may]] []
                          (sample_request 100)) = Ok sample_batch)
    by reflexivity.
  split; [exact H1|].
  destruct (fetch_returns sample_parse sample_repr
              (scripted_actor [answer sample_batch; answer [post_may]])
              "janedoe" "tok" jan1 dec31 100 100 [] sample_batch [post_may])
    as (all & inr & log' & H & _).
  - exact H1.
  - exact sample_batch_readable.
  - reflexivity.
  - constructor; [readable_item | constructor].
  - exists all, inr, log'. exact H.
Defined.

Lemma fetch_body_not_list_witness :
  resp_ok (ok_response (Ok (VDict ∅))) = true
  /\ sample_fetch [Ok (ok_response (Ok (VDict ∅)))] 100
     = (Ok ([], []), [sample_request 100]).
Proof.
  split; [reflexivity|].
  apply (fetch_body_not_list sample_parse sample_repr
           (scripted_actor [Ok (ok_response (Ok (VDict ∅)))])
           "janedoe" "tok" jan1 dec31 100 100 [] (ok_response (Ok (VDict ∅)))
           (VDict ∅)).
  - reflexivity.
  - reflexivity.
  - reflexivity.
  - discriminate.
Defined.

Lemma fetch_first_failure_witness :
  sample_fetch [Raise connection_error] 100
  = (Raise connection_error, [sample_request 100])
  /\ sample_fetch [Ok (ok_response (Raise decode_error))] 100
     = (Raise decode_error, [sample_request 100]).
Proof.
  split.
  - apply (fetch_first_failure sample_parse sample_repr
             (scripted_actor [Raise connection_error])
             "janedoe" "tok" jan1 dec31 100 100 [] connection_error).
    left. reflexivity.
  - apply (fetch_first_failure sample_parse sample_repr
             (scripted_actor [Ok (ok_response (Raise decode_error))])
             "janedoe" "tok" jan1 dec31 100 100 [] decode_error).
    right. eexists. split; [reflexivity|]. split; reflexivity.
Defined.

Lemma fetch_retry_replaces_witness :
  retry_trigger sample_parse sample_repr jan1 100 [post_dated "junk"]
  /\ sample_fetch [answer [post_dated "junk"]; answer []] 100
     = (Ok ([], []), [sample_request 100; sample_request 10000]).
Proof.
  assert (Ht : retry_trigger sample_parse sample_repr jan1 100 [post_dated "junk"])
    by (apply wants_retry_trigger; vm_compute; reflexivity).
  split; [exact Ht|].
  exact (fetch_retry_replaces sample_parse sample_repr
           (scripted_actor [answer [post_dated "junk"]; answer []])
           "janedoe" "tok" jan1 dec31 100 100 [] [post_dated "junk"]
           eq_refl ltac:(discriminate) Ht).
Defined.

Lemma fetch_second_asks_more_witness :
  snd (sample_fetch [answer [post_dated "junk"]; answer [post_may]] 100)
  = [sample_request 100; sample_request 10000]
  /\ req_total_posts (sample_request 100) < req_total_posts (sample_request 10000).
Proof.
  assert (H : snd (sample_fetch [answer [post_dated "junk"]; answer [post_may]] 100)
              = ([] ++ [sample_request 100; sample_request 10000])%list)
    by (vm_compute; reflexivity).
  split; [exact H|].
  destruct (fetch_second_asks_more sample_parse sample_repr _ _ _ _ _ _ _ _ _ _ H)
    as (_ & Hlt & _).
  exact Hlt.
Defined.

Lemma fetch_inverted_range_witness :
  dt_lt jan1 dec31 = Ok true
  /\ fetch_posts_bulk sample_parse sample_repr (scripted_actor [answer sample_batch])
       "janedoe" "tok" dec31 jan1 100 100 []
     = (Ok (sample_batch, []), [sample_request 100]).
Proof.
  assert (Hinv : dt_lt jan1 dec31 = Ok true) by reflexivity.
  split; [exact Hinv|].
  destruct (fetch_posts_bulk sample_parse sample_repr (scripted_actor [answer sample_batch])
              "janedoe" "tok" dec31 jan1 100 100 []) as [[[all inr]|e] log'] eqn:H.
  - rewrite (fetch_inverted_range _ _ _ _ _ _ _ _ _ _ _ _ _ H Hinv).
    vm_compute in H. injection H as <- _ <-. reflexivity.
  - vm_compute in H. discriminate H.
Defined.

Lemma fetch_bounds_inclusive_witness :
  sample_fetch [answer [post_dated "2025-01-01"]] 100
  = (Ok ([post_dated "2025-01-01"], [post_dated "2025-01-01"]), [sample_request 100])
  /\ post_dated "2025-01-01" ∈ [post_dated "2025-01-01"].
Proof.
  assert (H : sample_fetch [answer [post_dated "2025-01-01"]] 100
              = (Ok ([post_dated "2025-01-01"], [post_dated "2025-01-01"]),
                 [sample_request 100]))
    by (vm_compute; reflexivity).
  split; [exact H|].
  apply (fetch_bounds_inclusive _ _ _ _ _ _ _ _ _ _ _ _ _ (post_dated "2025-01-01")
           jan1 H).
  - left.
  - vm_compute. reflexivity.
  - reflexivity.
  - left. reflexivity.
Defined.

Lemma fetch_keeps_newest_first_witness :
  sample_fetch [answer sample_in_range] 100
  = (Ok (sample_in_range, sample_in_range), [sample_request 100])
  /\ List.filter (within sample_parse sample_repr jan1 dec31) sample_in_range
     = sample_in_range.
Proof.
  assert (H : sample_fetch [answer sample_in_range] 100
              = (Ok (sample_in_range, sample_in_range), [sample_request 100]))
    by (vm_compute; reflexivity).
  split; [exact H|].
  assert (Hf : List.filter (within sample_parse sample_repr jan1 dec31) sample_in_range
               = sample_in_range) by (vm_compute; reflexivity).
  symmetry. apply (fetch_keeps_newest_first _ _ _ _ _ _ _ _ _ _ _ _ _ H).
  rewrite Hf.
  destruct (finish_spec sample_parse sample_repr jan1 dec31 sample_in_range
              sample_in_range sample_in_range ltac:(vm_compute; reflexivity))
    as (_ & _ & Hsorted & _).
  exact Hsorted.
Defined.


Lemma fetch_aware_aborts_witness :
  aware jan1 = false
  /\ sample_fetch [answer [post_may; post_dated "2025-03-01Z"]] 100
     = (Raise naive_aware_error, [sample_request 100]).
Proof.
  split; [reflexivity|].
  apply (fetch_aware_aborts sample_parse sample_repr
           (scripted_actor [answer [post_may; post_dated "2025-03-01Z"]])
           "janedoe" "tok" jan1 dec31 100 100 []
           [post_may; post_dated "2025-03-01Z"] (post_dated "2025-03-01Z")
           (mkDatetime (wall march1) (Some 0))).
  - reflexivity.
  - reflexivity.
  - intros q Hq. apply elem_of_cons in Hq as [->|Hq];
      [|apply elem_of_cons in Hq as [->|Hq]; [|inversion Hq]];
      eexists; vm_compute; reflexivity.
  - right. left.
  - vm_compute. reflexivity.
  - reflexivity.
Defined.

Lemma on_generate_requests_witness :
  "https://www.linkedin.com/in/janedoe/" <> EmptyString
  /\ exists more,
       snd (sample_on_generate [answer sample_batch] "https://www.linkedin.com/in/janedoe/")
       = sample_request 100 :: more.
Proof.
  split; [discriminate|].
  destruct (proj2 (on_generate_requests sample_parse sample_repr
                     (scripted_actor [answer sample_batch])
                     "https://www.linkedin.com/in/janedoe/" " tok " 100 100
                     (mkDate 2025 1 1) (mkDate 2025 12 31) []))
    as (more & Hlog & _); [discriminate|].
  exists more. exact Hlog.
Defined.

Lemma extract_username_profile_url_witness :
  lacks "l" "https://www." = true
  /\ extract_username "https://www.linkedin.com/in/jane doe /posts?x=1" = "jane doe ".
Proof.
  split; [reflexivity|].
  apply (extract_username_profile_url "https://www." "jane doe " "/posts?x=1").
  - reflexivity.
  - discriminate.
  - reflexivity.
  - reflexivity.
Defined.

Lemma blank_url_empty_username_witness :
  all_chars is_space "  " = true
  /\ exists rq more,
       snd (sample_on_generate [answer []] "  ") = rq :: more
       /\ req_username rq = EmptyString.
Proof.
  split; [reflexivity|].
  destruct (blank_url_empty_username sample_parse sample_repr (scripted_actor [answer []])
              "  " " tok " 100 100 (mkDate 2025 1 1) (mkDate 2025 12 31) [] eq_refl)
    as (_ & H).
  apply H. discriminate.
Defined.

Lemma get_path_agrees_with_get_witness :
  lacks "." "url" = true
  /\ py_get post_a "url" (VStr EmptyString) = Ok (get_path post_a "url")
  /\ get_path (VStr "loose") "url" = VStr EmptyString.
Proof.
  split; [reflexivity|]. split.
  - apply (proj1 (get_path_agrees_with_get post_a "url" eq_refl)
             (<[ "url" := VStr "https://example.org/a" ]>
                {[ "posted_at" := VDict {[ "date" := VStr "2025-03-01" ]} ]})).
    reflexivity.
  - apply (proj2 (get_path_agrees_with_get (VStr "loose") "url" eq_refl)). reflexivity.
Defined.

Lemma range_covers_days_witness :
  utcoffset march1 = None
  /\ dt_le (combine_min (mkDate 2025 1 1)) march1 = Ok true
  /\ dt_le march1 (combine_max (mkDate 2025 12 31)) = Ok true.
Proof.
  split; [reflexivity|].
  apply (proj1 (range_covers_days (mkDate 2025 1 1) (mkDate 2025 12 31) march1) eq_refl).
  vm_compute. split; discriminate.
Defined.

Lemma get_apify_token_spec_witness :
  get_apify_token (Raise (LibraryError "FileNotFoundError" "No secrets files found"))
    (VStr "tok") = Ok (VStr "tok")
  /\ get_apify_token (Ok (VStr EmptyString)) (VStr "tok") = Ok (VStr "tok").
Proof.
  split.
  - destruct (get_apify_token_spec
                (Raise (LibraryError "FileNotFoundError" "No secrets files found"))
                (VStr "tok")) as (token & -> & _ & Henv).
    now rewrite Henv.
  - destruct (get_apify_token_spec (Ok (VStr EmptyString)) (VStr "tok"))
      as (token & -> & _ & Henv).
    rewrite Henv; [reflexivity|]. now intros v [= <-].
Defined.
